(** * EthersAdapter: a shallow embedding of [src/eth-lib-adapters/EthersAdapter.ts]

    The adapter is a thin layer of JavaScript glue over the ethers library, a
    signer and a JSON-RPC provider.  The embedding has three layers:

    - [JS]: the fragment of JavaScript values and object operations the
      adapter uses (property access, object spread, rest destructuring,
      [startsWith], [slice], [Object.getOwnPropertyNames]);
    - the effect monad [M]: every call that leaves the adapter (signer,
      provider, contract proxy) is appended to a trace and answered by an
      oracle, so that "what was submitted, and when" is a property of the
      trace;
    - the two classes of the source file, method by method.  The
      constructor and [getProvider] read plain properties of the objects
      they are given and are modelled on values; the two ABI codec
      pass-throughs are single calls into the library and are left
      out. *)

From Stdlib Require Import List String Ascii ZArith Bool Lia Arith.
From Stdlib Require Import DecimalString.
Import ListNotations.
Open Scope string_scope.
Open Scope list_scope.
Set Warnings "-register-all".

(** ** JavaScript values *)

Module JS.

(** JSON-like values.  Numbers are restricted to integers (gas amounts,
    chain ids); objects are association lists in property insertion
    order, which is the order [Object.getOwnPropertyNames] reports for
    keys that are not array indices. *)
Inductive value : Type :=
| VUndefined
| VNull
| VBool (b : bool)
| VNum (n : Z)
| VStr (s : string)
| VArr (elems : list value)
| VObj (props : list (string * value)).

(** What a [throw] or a rejected promise carries. *)
Inductive exn : Type :=
| TypeError (msg : string)   (* raised by the language itself *)
| Error (msg : string)       (* [new Error(msg)] thrown by the adapter *)
| Thrown (v : value).        (* any value thrown by a library or a node *)

Inductive result (A : Type) : Type :=
| Ok (a : A)
| Throw (e : exn).
Arguments Ok {A} a.
Arguments Throw {A} e.

Definition rbind {A B} (r : result A) (k : A -> result B) : result B :=
  match r with
  | Ok a => k a
  | Throw e => Throw e
  end.

(** *** Strings *)

(** [s.startsWith(p)] *)
Definition startsWith (p s : string) : bool := String.prefix p s.

(** [s.slice(n)] for [n >= 0] *)
Definition slice (n : nat) (s : string) : string :=
  substring n (String.length s - n) s.

(** [s.slice(-n)] for [n > 0]: the last [n] code units, the whole string
    when it is shorter. *)
Definition sliceLast (n : nat) (s : string) : string :=
  slice (String.length s - n) s.

(** [s.toLowerCase()] on ASCII letters *)
Definition lowerChar (c : ascii) : ascii :=
  let n := nat_of_ascii c in
  if (65 <=? n)%nat && (n <=? 90)%nat then ascii_of_nat (n + 32) else c.

Fixpoint toLowerCase (s : string) : string :=
  match s with
  | EmptyString => EmptyString
  | String c r => String (lowerChar c) (toLowerCase r)
  end.

Definition string_of_nat (n : nat) : string :=
  NilZero.string_of_uint (Nat.to_uint n).

Definition string_of_Z (z : Z) : string :=
  NilZero.string_of_int (Z.to_int z).

Fixpoint chars (s : string) : list string :=
  match s with
  | EmptyString => []
  | String c r => String c EmptyString :: chars r
  end.

(** *** Objects as association lists *)

Definition props := list (string * value).

Fixpoint lookup (k : string) (ps : props) : option value :=
  match ps with
  | [] => None
  | (k', v) :: r => if String.eqb k k' then Some v else lookup k r
  end.

Definition hasKey (k : string) (ps : props) : bool :=
  match lookup k ps with Some _ => true | None => false end.

(** Assignment of an own property: an existing key keeps its position,
    a new key goes last. *)
Definition setProp (k : string) (v : value) (ps : props) : props :=
  if hasKey k ps
  then map (fun kv => if String.eqb k (fst kv) then (k, v) else kv) ps
  else ps ++ [(k, v)].

(** The keys left after [const { k1, ..., kn, ...rest } = o]. *)
Definition omit (ks : list string) (ps : props) : props :=
  filter (fun kv => negb (existsb (String.eqb (fst kv)) ks)) ps.

Definition indexed (vs : list value) : props :=
  combine (map string_of_nat (seq 0 (List.length vs))) vs.

(** Own enumerable properties, as copied by [...v] in an object literal
    and by a rest pattern.  [undefined], [null], numbers and booleans
    contribute nothing. *)
Definition ownEnumerable (v : value) : props :=
  match v with
  | VObj ps => ps
  | VArr vs => indexed vs
  | VStr s => indexed (map VStr (chars s))
  | _ => []
  end.

(** [{ ...base, ...v }] where [base] is what the literal has built so far. *)
Definition spread (base : props) (v : value) : props :=
  fold_left (fun acc kv => setProp (fst kv) (snd kv) acc) (ownEnumerable v) base.

(** [Object.getOwnPropertyNames(v)] *)
Definition getOwnPropertyNames (v : value) : result (list string) :=
  match v with
  | VUndefined | VNull =>
      Throw (TypeError "Cannot convert undefined or null to object")
  | VObj ps => Ok (map fst ps)
  | VArr vs => Ok (map fst (indexed vs) ++ ["length"])
  | VStr s => Ok (map fst (indexed (map VStr (chars s))) ++ ["length"])
  | VBool _ | VNum _ => Ok []
  end.

(** [v[k]] on own properties.  The keys the adapter looks up ([data],
    [return], [hash], [chainId], [from], [gas], a [0x...] hash,
    [undefined]) are defined on no built-in prototype, so inherited
    properties are left out. *)
Definition get (v : value) (k : string) : result value :=
  match v with
  | VUndefined | VNull =>
      Throw (TypeError ("Cannot read property '" ++ k ++ "' of undefined or null")%string)
  | VObj ps => Ok (match lookup k ps with Some x => x | None => VUndefined end)
  | VArr vs =>
      if String.eqb k "length" then Ok (VNum (Z.of_nat (List.length vs)))
      else Ok (match lookup k (indexed vs) with Some x => x | None => VUndefined end)
  | VStr s =>
      if String.eqb k "length" then Ok (VNum (Z.of_nat (String.length s)))
      else Ok (match lookup k (indexed (map VStr (chars s))) with
               | Some x => x | None => VUndefined end)
  | VBool _ | VNum _ => Ok VUndefined
  end.

(** [e.k] where [e] is the binding of a [catch] clause.  Errors built by
    the language or by [new Error(msg)] carry only a message. *)
Definition getExn (e : exn) (k : string) : result value :=
  match e with
  | Thrown v => get v k
  | TypeError msg | Error msg =>
      Ok (if String.eqb k "message" then VStr msg else VUndefined)
  end.

(** [String(v)], as used by template literals. *)
Fixpoint toStr (v : value) : string :=
  match v with
  | VUndefined => "undefined"
  | VNull => "null"
  | VBool true => "true"
  | VBool false => "false"
  | VNum n => string_of_Z n
  | VStr s => s
  | VArr vs =>
      (fix join (l : list value) : string :=
         match l with
         | [] => EmptyString
         | x :: r =>
             let sx := match x with VUndefined | VNull => EmptyString | _ => toStr x end in
             match r with [] => sx | _ => (sx ++ "," ++ join r)%string end
         end) vs
  | VObj _ => "[object Object]"
  end.

(** The property key a value converts to in [o[v]]. *)
Definition toPropertyKey (v : value) : string := toStr v.

(** [s !== v] with a string on the left: strict comparison never
    converts, so only an equal string is equal. *)
Definition strictNeStr (s : string) (v : value) : bool :=
  match v with
  | VStr t => negb (String.eqb s t)
  | _ => true
  end.

(** [v != null] *)
Definition notNullish (v : value) : bool :=
  match v with VUndefined | VNull => false | _ => true end.

(** [!v] *)
Definition falsy (v : value) : bool :=
  match v with
  | VUndefined | VNull => true
  | VBool b => negb b
  | VNum n => Z.eqb n 0
  | VStr s => String.eqb s EmptyString
  | VArr _ | VObj _ => false
  end.

End JS.

Import JS.

Notation "'let*' x ':=' r 'in' k" := (rbind r (fun x => k))
  (at level 10, x name, r at level 100, k at level 200).

(** ** Effects: requests leaving the adapter

    Each call into the signer, its provider or an ethers contract proxy is
    one [request].  A run threads the [trace] of the requests made so far;
    the world answers a request through an oracle that may look at that
    history. *)

Inductive request : Type :=
| SignerGetAddress                       (* [signer.getAddress()] *)
| SignerSendTransaction (tx : value)     (* [signer.sendTransaction(tx)] *)
| ProviderSend (method : string) (params : list value)
                                         (* [signer.provider.send(method, params)] *)
| ProviderGetNetwork                     (* [signer.provider.getNetwork()] *)
| ProviderGetCode (address : value)      (* [signer.provider.getCode(address)] *)
| ProviderGetBlock (block : value)       (* [signer.provider.getBlock(block)] *)
| ContractFunction (address : value) (method : string) (args : list value)
                                         (* [contract.functions[method](...args)] *)
| ContractEstimate (address : value) (method : string) (args : list value).
                                         (* [contract.estimate[method](...args)] *)

Definition trace := list request.

(** A request that hands a transaction to the signer for submission. *)
Definition isSubmission (r : request) : bool :=
  match r with
  | SignerSendTransaction _ | ContractFunction _ _ _ => true
  | _ => false
  end.

Definition submissions (t : trace) : list request := filter isSubmission t.

(** An [async] computation: it ends resolved ([Ok]) or rejected ([Throw]),
    and leaves the trace of what it asked of the world. *)
Definition M (A : Type) : Type := trace -> result A * trace.

Definition ret {A} (a : A) : M A := fun t => (Ok a, t).

Definition throw {A} (e : exn) : M A := fun t => (Throw e, t).

Definition lift {A} (r : result A) : M A := fun t => (r, t).

Definition bind {A B} (m : M A) (k : A -> M B) : M B :=
  fun t =>
    match m t with
    | (Ok a, t') => k a t'
    | (Throw e, t') => (Throw e, t')
    end.

(** [try { return await m } catch (e) { h }] *)
Definition tryCatch {A} (m : M A) (h : exn -> M A) : M A :=
  fun t =>
    match m t with
    | (Ok a, t') => (Ok a, t')
    | (Throw e, t') => h e t'
    end.

Notation "x <- m ;; k" := (bind m (fun x => k))
  (at level 61, m at next level, k at level 200).

(** ** The libraries the adapter is configured with *)

(** [ethers.utils], as far as the adapter reaches into it. *)
Record EthersUtils : Type := {
  utils_keccak256 : string -> result string;
  utils_solidityKeccak256 : list string -> list string -> result string;
  utils_getAddress : value -> result string
}.

(** The signer with its provider, and the contract proxies built on it:
    given the requests answered so far, the answer to the next one. *)
Definition Signer : Type := trace -> request -> result value.

(** [class EthersAdapter]: the fields [ethers] and [signer]. *)
Record EthersAdapter : Type := {
  ethers : EthersUtils;
  signer : Signer
}.

(** The two functions imported from [../utils/transactions], whose source
    is not part of this development: they are parameters. *)
Record Transactions : Type := {
  normalizeGasLimit : value -> result value;
  formatCallTx : value -> result value
}.

(** One entry of [contract.interface.functions]: the declared output
    types and the codec of one method of the Abi. *)
Record FunctionDescription : Type := {
  fn_outputs : list string;
  fn_encode : list value -> result string;
  fn_decode : value -> result (list value)
}.

(** An [ethers.Contract]: [functions], [estimate] and
    [interface.functions] are all keyed by the method names of the Abi. *)
Record Contract : Type := {
  contract_address : value;
  contract_interface : list (string * FunctionDescription)
}.

(** [class EthersContractAdapter]: the fields [contract] and
    [ethersAdapter]. *)
Record EthersContractAdapter : Type := {
  contract : Contract;
  ethersAdapter : EthersAdapter
}.

Fixpoint findFunction (name : string) (fs : list (string * FunctionDescription))
  : option FunctionDescription :=
  match fs with
  | [] => None
  | (n, f) :: r => if String.eqb name n then Some f else findFunction name r
  end.

(** [BigNumber.toNumber()]: a big number is a [VNum]; the conversion
    fails beyond 53 bits, and on anything that is not a big number. *)
Definition toNumber (v : value) : result value :=
  match v with
  | VNum n =>
      if (Z.abs n <? 2 ^ 53)%Z then Ok (VNum n)
      else Throw (Thrown (VObj [("reason", VStr "overflow")]))
  | VUndefined | VNull =>
      Throw (TypeError "Cannot read property 'toNumber' of undefined or null")
  | _ => Throw (TypeError "toNumber is not a function")
  end.

(** The error of [checkFromAddress]:
    [new Error(`want from ${expectedFrom} but got from ${from}`)]. *)
Definition addressMismatchError (expectedFrom from : value) : exn :=
  Error ("want from " ++ toStr expectedFrom ++ " but got from " ++ toStr from)%string.

(** ** [class EthersAdapter] *)

Section EthersAdapterMethods.

Variable txs : Transactions.
Variable this : EthersAdapter.

(** A request to the signer side: answered by the oracle, recorded in
    the trace. *)
Definition perform (r : request) : M value :=
  fun t => (signer this t r, t ++ [r]).

Definition providerSend (method : string) (params : list value) : M value :=
  perform (ProviderSend method params).

Definition getNetworkId : M value :=
  network <- perform ProviderGetNetwork ;;
  lift (get network "chainId").

Definition getAccount : M value :=
  perform SignerGetAddress.

Definition keccak256 (data : string) : result string :=
  utils_keccak256 (ethers this) data.

Definition calcCreate2Address (deployer salt initCode : string) : result string :=
  let* codeHash := keccak256 initCode in
  let* digest :=
    utils_solidityKeccak256 (ethers this)
      ["bytes"; "address"; "bytes32"; "bytes32"]
      ["0xff"; deployer; salt; codeHash] in
  utils_getAddress (ethers this) (VStr (sliceLast 40 digest)).

Definition getCode (address : value) : M value :=
  perform (ProviderGetCode address).

Definition getBlock (blockHashOrBlockNumber : value) : M value :=
  perform (ProviderGetBlock blockHashOrBlockNumber).

Definition ethCall (tx block : value) : M value :=
  formatted <- lift (formatCallTx txs tx) ;;
  providerSend "eth_call" [formatted; block].

(** The last branch of the [catch] clause: the Ganache format, a mapping
    from transaction hash to an entry with a [return] field. *)
Definition ganacheRevertData (data : value) : result value :=
  let* names := getOwnPropertyNames data in
  let txHash := hd VUndefined (map VStr (filter (startsWith "0x") names)) in
  let* entry := get data (toPropertyKey txHash) in
  get entry "return".

(** The [catch] clause of [getCallRevertData]. *)
Definition revertDataOfError (e : exn) : result value :=
  let* data := getExn e "data" in
  match data with
  | VStr s =>
      if startsWith "Reverted 0x" s then Ok (VStr (slice 9 s))
      else ganacheRevertData data
  | _ => ganacheRevertData data
  end.

Definition getCallRevertData (tx block : value) : M value :=
  tryCatch (ethCall tx block) (fun e => lift (revertDataOfError e)).

Definition checkFromAddress (from : value) : M unit :=
  expectedFrom <- getAccount ;;
  normalized <- lift (utils_getAddress (ethers this) from) ;;
  if strictNeStr normalized expectedFrom
  then throw (addressMismatchError expectedFrom from)
  else ret tt.

(** The object handed to the library by [ethSendTransaction] and [send]:
    [const { from, gas, ...rest } = normalized] followed by
    [{ gasLimit: gas, ...rest }]. *)
Definition sendOverrides (normalized gas : value) : value :=
  VObj (spread [("gasLimit", gas)]
          (VObj (omit ["from"; "gas"] (ownEnumerable normalized)))).

Definition ethSendTransaction (tx : value) : M value :=
  normalized <- lift (normalizeGasLimit txs tx) ;;
  from <- lift (get normalized "from") ;;
  gas <- lift (get normalized "gas") ;;
  _ <- checkFromAddress from ;;
  transactionResponse <- perform (SignerSendTransaction (sendOverrides normalized gas)) ;;
  hash <- lift (get transactionResponse "hash") ;;
  ret (VObj [("transactionResponse", transactionResponse); ("hash", hash)]).

Definition getSendOptions (ownerAccount options : value) : value :=
  VObj (spread [("from", ownerAccount)] options).

End EthersAdapterMethods.

(** ** [class EthersContractAdapter] *)

Section EthersContractAdapterMethods.

Variable txs : Transactions.
Variable this : EthersContractAdapter.

Definition address : value := contract_address (contract this).

(** [this.contract.interface.functions[methodName]], about to be
    dereferenced. *)
Definition interfaceFunction (methodName : string) : result FunctionDescription :=
  match findFunction methodName (contract_interface (contract this)) with
  | Some f => Ok f
  | None => Throw (TypeError "Cannot read property of undefined")
  end.

Definition encode (methodName : string) (params : list value) : result string :=
  let* f := interfaceFunction methodName in
  fn_encode f params.

(** [this.contract.functions[methodName](...args)], for a name that is a
    method of the Abi or no property of the object at all.  The members
    every object inherits ([toString], [valueOf], ...) are functions
    too; they are named by [inheritedName] below and kept out of the
    statements they would change. *)
Definition contractFunction (methodName : string) (args : list value) : M value :=
  match findFunction methodName (contract_interface (contract this)) with
  | Some _ => perform (ethersAdapter this) (ContractFunction address methodName args)
  | None => throw (TypeError "this.contract.functions[methodName] is not a function")
  end.

(** [this.contract.estimate[methodName](...args)] *)
Definition contractEstimate (methodName : string) (args : list value) : M value :=
  match findFunction methodName (contract_interface (contract this)) with
  | Some _ => perform (ethersAdapter this) (ContractEstimate address methodName args)
  | None => throw (TypeError "this.contract.estimate[methodName] is not a function")
  end.

(** The transaction object of [call]:
    [{ ...options, to: this.address, data }]. *)
Definition callTx (data : string) (options : value) : value :=
  VObj (setProp "data" (VStr data) (setProp "to" address (spread [] options))).

Definition call (methodName : string) (params : list value) (options : value) : M value :=
  data <- lift (encode methodName params) ;;
  resHex <- ethCall txs (ethersAdapter this) (callTx data options) (VStr "latest") ;;
  f <- lift (interfaceFunction methodName) ;;
  rets <- lift (fn_decode f resHex) ;;
  if Nat.eqb (List.length rets) 1 then ret (hd VUndefined rets) else ret (VArr rets).

Definition send (methodName : string) (params : list value) (options : value) : M value :=
  transactionResponse <-
    (if notNullish options then
       normalized <- lift (normalizeGasLimit txs options) ;;
       from <- lift (get normalized "from") ;;
       gas <- lift (get normalized "gas") ;;
       _ <- checkFromAddress (ethersAdapter this) from ;;
       contractFunction methodName (params ++ [sendOverrides normalized gas])
     else
       contractFunction methodName params) ;;
  hash <- lift (get transactionResponse "hash") ;;
  ret (VObj [("transactionResponse", transactionResponse); ("hash", hash)]).

(** The object handed to [contract.estimate]: [const { gas, ...rest } =
    normalized] followed by [{ gasLimit: gas, ...rest }]. *)
Definition estimateOverrides (normalized gas : value) : value :=
  VObj (spread [("gasLimit", gas)]
          (VObj (omit ["gas"] (ownEnumerable normalized)))).

Definition estimateGas (methodName : string) (params : list value) (options : value)
  : M value :=
  if falsy options then
    estimate <- contractEstimate methodName params ;;
    lift (toNumber estimate)
  else
    normalized <- lift (normalizeGasLimit txs options) ;;
    gas <- lift (get normalized "gas") ;;
    estimate <- contractEstimate methodName
                  (params ++ [estimateOverrides normalized gas]) ;;
    lift (toNumber estimate).

End EthersContractAdapterMethods.

(** ** Verified senders *)

(** [from] resolves to the account the signer controls: the signer names
    an account, and the checksum form of [from] is that very string. *)
Definition verifiedSender (this : EthersAdapter) (t : trace) (from : value) : Prop :=
  exists account,
    signer this t SignerGetAddress = Ok (VStr account)
    /\ utils_getAddress (ethers this) from = Ok account.

(** The normalization of the library does not depend on the letter case
    in which an address is written. *)
Definition caseInsensitive (utils : EthersUtils) : Prop :=
  forall a b na nb,
    utils_getAddress utils (VStr a) = Ok na ->
    utils_getAddress utils (VStr b) = Ok nb ->
    toLowerCase a = toLowerCase b ->
    na = nb.

(** ** Shapes of the error of a failed call *)

(** The error shapes the specification names as recognized: [data] is a
    string with the sentinel prefix, or a mapping that has an entry
    under a hash-like key with a [return] field. *)
Definition recognizedShape (data : value) : bool :=
  match data with
  | VStr s => startsWith "Reverted 0x" s
  | VObj ps =>
      existsb (fun kv =>
                 startsWith "0x" (fst kv)
                 && match snd kv with
                    | VObj entry => hasKey "return" entry
                    | _ => false
                    end) ps
  | _ => false
  end.

(** Error data in which the [catch] clause finds nothing to read: not a
    sentinel string, and no own key that begins with [0x] or is spelled
    [undefined]. *)
Definition noCandidateKey (data : value) : bool :=
  match data with
  | VStr s => negb (startsWith "Reverted 0x" s)
  | VObj ps =>
      forallb (fun k => negb (startsWith "0x" k) && negb (String.eqb k "undefined"))
              (map fst ps)
  | _ => true
  end.

(** ** Names every object answers to *)

(** The properties of [Object.prototype]: a plain object such as
    [contract.functions] or [contract.estimate] has them under these
    names even when the Abi has no such method. *)
Definition objectPrototypeNames : list string :=
  ["constructor"; "__defineGetter__"; "__defineSetter__"; "hasOwnProperty";
   "__lookupGetter__"; "__lookupSetter__"; "isPrototypeOf";
   "propertyIsEnumerable"; "toString"; "valueOf"; "__proto__";
   "toLocaleString"].

Definition inheritedName (name : string) : bool :=
  existsb (String.eqb name) objectPrototypeNames.

(** ** Construction and the methods that only read properties *)

(** [constructor({ ethers, signer })]: the pattern reads the two
    properties of the configuration, each must be truthy, and the new
    adapter keeps them as they are. *)
Definition EthersAdapter_constructor (config : value) : result value :=
  let* ethersLibrary := get config "ethers" in
  let* signerObject := get config "signer" in
  if falsy ethersLibrary
  then Throw (Error "ethers property missing from options")
  else if falsy signerObject
  then Throw (Error "signer property missing from options")
  else Ok (VObj [("ethers", ethersLibrary); ("signer", signerObject)]).

(** [getProvider()], on the signer as an object:
    [signer.provider.provider || signer.provider._web3Provider]. *)
Definition getProvider (signerObject : value) : result value :=
  let* provider := get signerObject "provider" in
  let* inner := get provider "provider" in
  if falsy inner then get provider "_web3Provider" else Ok inner.

(** Modelled from the spec: the constant [zeroAddress] of
    [../utils/constants], the all-zero address a contract handle is bound
    to when no address is given (section 4.3). *)
Definition zeroAddress : string := "0x0000000000000000000000000000000000000000".

(** [getContract(abi, address?)]: the library's contract over
    [address || zeroAddress], the Abi and the signer, wrapped together
    with this adapter.  The Abi is taken in the form the library turns it
    into, the table of its function descriptions. *)
Definition getContract (this : EthersAdapter)
           (abi : list (string * FunctionDescription)) (address : value)
  : EthersContractAdapter :=
  {| contract :=
       {| contract_address := if falsy address then VStr zeroAddress else address;
          contract_interface := abi |};
     ethersAdapter := this |}.

(** ** Hex strings and the bytes they stand for *)

Module Hex.

Definition digitValue (c : ascii) : option Z :=
  let n := Z.of_nat (nat_of_ascii c) in
  if ((48 <=? n) && (n <=? 57))%Z then Some (n - 48)%Z
  else if ((97 <=? n) && (n <=? 102))%Z then Some (n - 87)%Z
  else if ((65 <=? n) && (n <=? 70))%Z then Some (n - 55)%Z
  else None.

Definition digitChar (d : Z) : ascii :=
  ascii_of_nat (Z.to_nat (if (d <? 10)%Z then d + 48 else d + 87)%Z).

Definition isDigit (c : ascii) : bool :=
  match digitValue c with Some _ => true | None => false end.

Fixpoint isDigits (s : string) : bool :=
  match s with
  | EmptyString => true
  | String c r => isDigit c && isDigits r
  end.

(** Pairs of hex digits to bytes; [None] on a non-digit or an odd count. *)
Fixpoint bytesOfDigits (s : string) : option (list Z) :=
  match s with
  | EmptyString => Some []
  | String hi (String lo r) =>
      match digitValue hi, digitValue lo, bytesOfDigits r with
      | Some h, Some l, Some bs => Some ((16 * h + l)%Z :: bs)
      | _, _, _ => None
      end
  | String _ EmptyString => None
  end.

Fixpoint digitsOfBytes (bs : list Z) : string :=
  match bs with
  | [] => EmptyString
  | b :: r =>
      String (digitChar (b / 16)) (String (digitChar (b mod 16)) (digitsOfBytes r))
  end.

(** The bytes a [0x]-prefixed hex string stands for. *)
Definition bytes (s : string) : option (list Z) :=
  match s with
  | String "0" (String "x" digits) => bytesOfDigits digits
  | _ => None
  end.

Definition ofBytes (bs : list Z) : string := ("0x" ++ digitsOfBytes bs)%string.

(** A [0x]-prefixed string of exactly [n] bytes: [2 * n] hex digits. *)
Definition isData (n : nat) (s : string) : bool :=
  match s with
  | String "0" (String "x" digits) =>
      Nat.eqb (String.length digits) (2 * n) && isDigits digits
  | _ => false
  end.

(** The digits of a hex string, without the prefix. *)
Definition digits (s : string) : string :=
  match s with
  | String "0" (String "x" ds) => ds
  | _ => s
  end.

(** [0x ++ a ++ b ++ ...]: the hex string of the concatenated bytes. *)
Definition concat (parts : list string) : string :=
  ("0x" ++ String.concat EmptyString (map digits parts))%string.

(** The last [n] elements of a list. *)
Definition lastn {A} (n : nat) (l : list A) : list A :=
  skipn (List.length l - n) l.

(** The string without its first [n] characters. *)
Fixpoint skipS (n : nat) (s : string) : string :=
  match n, s with
  | O, _ => s
  | S _, EmptyString => EmptyString
  | S n', String _ r => skipS n' r
  end.

End Hex.

(** ** Keccak-256

    The hash behind [ethers.utils.keccak256], on lists of bytes: the
    Keccak-f[1600] permutation on 25 lanes of 64 bits, rate 136 bytes,
    multi-rate padding with domain byte [0x01]. *)

Module Keccak.

Definition mask64 : Z := (2 ^ 64 - 1)%Z.

Definition rotl (v : Z) (n : Z) : Z :=
  Z.lor (Z.land (Z.shiftl v n) mask64) (Z.shiftr v (64 - n)).

Definition roundConstants : list Z :=
  [0x0000000000000001; 0x0000000000008082; 0x800000000000808A; 0x8000000080008000;
   0x000000000000808B; 0x0000000080000001; 0x8000000080008081; 0x8000000000008009;
   0x000000000000008A; 0x0000000000000088; 0x0000000080008009; 0x000000008000000A;
   0x000000008000808B; 0x800000000000008B; 0x8000000000008089; 0x8000000000008003;
   0x8000000000008002; 0x8000000000000080; 0x000000000000800A; 0x800000008000000A;
   0x8000000080008081; 0x8000000000008080; 0x0000000080000001; 0x8000000080008008]%Z.

Definition rotationOffsets : list Z :=
  [ 0;  1; 62; 28; 27;
   36; 44;  6; 55; 20;
    3; 10; 43; 25; 39;
   41; 45; 15; 21;  8;
   18;  2; 61; 56; 14]%Z.

Definition lane (A : list Z) (x y : nat) : Z :=
  nth (x mod 5 + 5 * (y mod 5)) A 0%Z.

Definition theta (A : list Z) : list Z :=
  let C x := fold_left Z.lxor (map (lane A x) (seq 0 5)) 0%Z in
  let D x := Z.lxor (C (x + 4)) (rotl (C (x + 1)) 1) in
  map (fun i => Z.lxor (nth i A 0%Z) (D (i mod 5))) (seq 0 25).

Definition rhoPi (A : list Z) : list Z :=
  map (fun i =>
         let X := i mod 5 in
         let Y := i / 5 in
         let x := (X + 3 * Y) mod 5 in
         let y := X in
         rotl (lane A x y) (nth (x + 5 * y) rotationOffsets 0%Z))
      (seq 0 25).

Definition chi (B : list Z) : list Z :=
  map (fun i =>
         let x := i mod 5 in
         let y := i / 5 in
         Z.lxor (lane B x y)
           (Z.land (Z.lxor (lane B (x + 1) y) mask64) (lane B (x + 2) y)))
      (seq 0 25).

Definition iota (rc : Z) (A : list Z) : list Z :=
  match A with
  | a :: r => Z.lxor a rc :: r
  | [] => []
  end.

Definition round (A : list Z) (rc : Z) : list Z :=
  iota rc (chi (rhoPi (theta A))).

Definition permute (A : list Z) : list Z := fold_left round roundConstants A.

Fixpoint laneOfBytes (bs : list Z) : Z :=
  match bs with
  | [] => 0
  | b :: r => (b + 256 * laneOfBytes r)%Z
  end.

Fixpoint lanesOfBytes (n : nat) (bs : list Z) : list Z :=
  match n with
  | O => []
  | S n' => laneOfBytes (firstn 8 bs) :: lanesOfBytes n' (skipn 8 bs)
  end.

Definition bytesOfLane (l : Z) : list Z :=
  map (fun i => Z.land (Z.shiftr l (8 * Z.of_nat i)) 255) (seq 0 8).

Definition rate : nat := 136.

Definition absorbBlock (A : list Z) (block : list Z) : list Z :=
  let ls := lanesOfBytes 25 block in
  permute (map (fun i => Z.lxor (nth i A 0%Z) (nth i ls 0%Z)) (seq 0 25)).

Definition pad (len : nat) : list Z :=
  let k := rate - len mod rate in
  if Nat.eqb k 1 then [0x81]%Z
  else (0x01 :: repeat 0 (k - 2) ++ [0x80])%Z.

Fixpoint absorb (fuel : nat) (A : list Z) (bs : list Z) : list Z :=
  match fuel with
  | O => A
  | S f =>
      match bs with
      | [] => A
      | _ => absorb f (absorbBlock A (firstn rate bs)) (skipn rate bs)
      end
  end.

Definition keccak256 (msg : list Z) : list Z :=
  let padded := msg ++ pad (List.length msg) in
  let A := absorb (S (List.length padded / rate)) (repeat 0%Z 25) padded in
  firstn 32 (List.concat (map bytesOfLane A)).

End Keccak.

(** ** A reference configuration

    What the adapter is configured with in practice: [ethers.utils] of
    ethers v4 over the Keccak-256 above, the two helpers of
    [../utils/transactions] as the specification describes them, and a
    signer that answers every request.  The general statements below
    quantify over any configuration; this one shows they apply to the
    real one, on concrete inputs. *)

Module Ref.

Definition invalid (reason : string) : exn :=
  Thrown (VObj [("reason", VStr reason)]).

(** [arrayify] on a hex string: an odd number of digits gets a leading
    zero. *)
Definition arrayify (s : string) : result (list Z) :=
  match s with
  | String "0" (String "x" ds) =>
      let ds' := if Nat.even (String.length ds) then ds else String "0" ds in
      match Hex.bytesOfDigits ds' with
      | Some bs => Ok bs
      | None => Throw (invalid "invalid arrayify value")
      end
  | _ => Throw (invalid "invalid arrayify value")
  end.

Definition keccak256 (data : string) : result string :=
  let* bs := arrayify data in
  Ok (Hex.ofBytes (Keccak.keccak256 bs)).

(** The size [n] of a type [bytesn], [1 <= n <= 32]. *)
Definition bytesSize (type : string) : option nat :=
  find (fun n => String.eqb type ("bytes" ++ string_of_nat n)%string) (seq 1 32).

(** [solidityPack] of one value, for the types the adapter packs. *)
Definition pack1 (type value : string) : result (list Z) :=
  if String.eqb type "address" then arrayify value
  else if String.eqb type "bytes" then arrayify value
  else
    match bytesSize type with
    | Some n =>
        let* bs := arrayify value in
        if Nat.eqb (List.length bs) n then Ok bs
        else Throw (invalid "invalid value for bytes type")
    | None => Throw (invalid "unsupported type")
    end.

Fixpoint pack (types values : list string) : result (list Z) :=
  match types, values with
  | [], [] => Ok []
  | t :: ts, v :: vs =>
      let* bs := pack1 t v in
      let* r := pack ts vs in
      Ok (bs ++ r)
  | _, _ => Throw (invalid "type/value count mismatch")
  end.

Definition solidityKeccak256 (types values : list string) : result string :=
  let* bs := pack types values in
  Ok (Hex.ofBytes (Keccak.keccak256 bs)).

Fixpoint asciiBytes (s : string) : list Z :=
  match s with
  | EmptyString => []
  | String c r => Z.of_nat (nat_of_ascii c) :: asciiBytes r
  end.

Definition upperChar (c : ascii) : ascii :=
  let n := nat_of_ascii c in
  if (97 <=? n)%nat && (n <=? 122)%nat then ascii_of_nat (n - 32) else c.

Fixpoint nibbles (bs : list Z) : list Z :=
  match bs with
  | [] => []
  | b :: r => (b / 16)%Z :: (b mod 16)%Z :: nibbles r
  end.

(** A digit is written in upper case where the hash has a nibble of 8
    or more. *)
Fixpoint applyChecksum (hash : list Z) (s : string) : string :=
  match s, hash with
  | String c r, h :: hs =>
      String (if (8 <=? h)%Z then upperChar c else c) (applyChecksum hs r)
  | _, _ => s
  end.

(** [getChecksumAddress], on the 40 digits of an address. *)
Definition getChecksumAddress (body : string) : string :=
  let lower := toLowerCase body in
  ("0x" ++ applyChecksum (nibbles (Keccak.keccak256 (asciiBytes lower))) lower)%string.

(** The 40 hex digits of an address written with or without [0x]. *)
Definition addressBody (address : string) : option string :=
  if Nat.eqb (String.length address) 40 && Hex.isDigits address then Some address
  else
    match address with
    | String "0" (String "x" body) =>
        if Nat.eqb (String.length body) 40 && Hex.isDigits body then Some body
        else None
    | _ => None
    end.

Fixpoint hasChar (p : ascii -> bool) (s : string) : bool :=
  match s with
  | EmptyString => false
  | String c r => p c || hasChar p r
  end.

Definition isUpperHex (c : ascii) : bool :=
  let n := nat_of_ascii c in (65 <=? n)%nat && (n <=? 70)%nat.

Definition isLowerHex (c : ascii) : bool :=
  let n := nat_of_ascii c in (97 <=? n)%nat && (n <=? 102)%nat.

Definition mixedCase (s : string) : bool :=
  hasChar isUpperHex s && hasChar isLowerHex s.

(** [getAddress]: the checksum form of a hex address; an address written
    in mixed case must already carry the right checksum.  (The ICAP
    notation the library also reads is rejected here.) *)
Definition getAddress (v : value) : result string :=
  match v with
  | VStr address =>
      match addressBody address with
      | Some body =>
          let r := getChecksumAddress body in
          if mixedCase body && negb (String.eqb r ("0x" ++ body)%string)
          then Throw (invalid "bad address checksum")
          else Ok r
      | None => Throw (invalid "invalid address")
      end
  | _ => Throw (invalid "invalid address")
  end.

Definition utils : EthersUtils := {|
  utils_keccak256 := keccak256;
  utils_solidityKeccak256 := solidityKeccak256;
  utils_getAddress := getAddress
|}.

(** Modelled from the spec: [normalizeGasLimit] of
    [../utils/transactions] (section 4.1).  The gas limit may be spelled
    [gas] or [gasLimit]; the result carries it under the one key [gas],
    every other key is passed through, and no [gas] is invented when the
    bag has none. *)
Definition specNormalizeGasLimit (options : value) : result value :=
  let ps := ownEnumerable options in
  let rest := omit ["gas"; "gasLimit"] ps in
  match lookup "gas" ps, lookup "gasLimit" ps with
  | Some g, _ => Ok (VObj (rest ++ [("gas", g)]))
  | None, Some g => Ok (VObj (rest ++ [("gas", g)]))
  | None, None => Ok (VObj rest)
  end.

(** Modelled from the spec: [formatCallTx] of [../utils/transactions]
    (section 4.2).  The fields of the call, without those whose value is
    undefined. *)
Definition specFormatCallTx (tx : value) : result value :=
  Ok (VObj (filter (fun kv => match snd kv with VUndefined => false | _ => true end)
              (ownEnumerable tx))).

Definition txs : Transactions := {|
  normalizeGasLimit := specNormalizeGasLimit;
  formatCallTx := specFormatCallTx
|}.

(** The account of the sample signer, in checksum form. *)
Definition account : string := "0x4D1A2e2bB4F88F0250f26Ffff098B0b30B26BF38".

(** A signer that controls [account]; its node answers every [eth_call]
    with [callResult] and accepts every transaction. *)
Definition signerWith (callResult : result value) : Signer :=
  fun _ r =>
    match r with
    | SignerGetAddress => Ok (VStr account)
    | SignerSendTransaction _ => Ok (VObj [("hash", VStr "0x01")])
    | ProviderSend _ _ => callResult
    | ProviderGetNetwork => Ok (VObj [("chainId", VNum 1)])
    | ProviderGetCode _ => Ok (VStr "0x")
    | ProviderGetBlock _ => Ok (VObj [])
    | ContractFunction _ _ _ => Ok (VObj [("hash", VStr "0x02")])
    | ContractEstimate _ _ _ => Ok (VNum 21000)
    end.

Definition adapterWith (callResult : result value) : EthersAdapter := {|
  ethers := utils;
  signer := signerWith callResult
|}.

Definition adapter : EthersAdapter := adapterWith (Ok (VStr "0x")).

(** A contract proxy with two methods and a canned codec: [balanceOf]
    declares one output, [getReserves] two. *)
Definition balanceOf : FunctionDescription := {|
  fn_outputs := ["uint256"];
  fn_encode := fun _ => Ok "0x70a08231";
  fn_decode := fun _ => Ok [VNum 7]
|}.

Definition getReserves : FunctionDescription := {|
  fn_outputs := ["uint112"; "uint112"];
  fn_encode := fun _ => Ok "0x0902f1ac";
  fn_decode := fun _ => Ok [VNum 3; VNum 4]
|}.

Definition token : Contract := {|
  contract_address := VStr "0x00000000000000000000000000000000DeaDBeef";
  contract_interface := [("balanceOf", balanceOf); ("getReserves", getReserves)]
|}.

Definition handle : EthersContractAdapter := {|
  contract := token;
  ethersAdapter := adapter
|}.

(** An address the sample signer does not control. *)
Definition stranger : string := "0x0000000000000000000000000000000000000000".

End Ref.

(** * Properties *)

(** ** Objects: lookup after assignment, spread and rest *)

Module JSFacts.

Lemma lookup_app (k : string) (p q : props) :
  lookup k (p ++ q)
  = match lookup k p with Some v => Some v | None => lookup k q end.
Proof.
  induction p as [|[k' v'] p IH]; simpl; [reflexivity|].
  destruct (String.eqb k k'); [reflexivity | exact IH].
Qed.

Lemma lookup_setProp_same (k : string) (v : value) (ps : props) :
  lookup k (setProp k v ps) = Some v.
Proof.
  unfold setProp, hasKey.
  destruct (lookup k ps) eqn:E.
  - induction ps as [|[k' v'] ps IH]; simpl in *; [discriminate|].
    destruct (String.eqb k k') eqn:Ek; simpl.
    + rewrite String.eqb_refl. reflexivity.
    + rewrite Ek. apply IH, E.
  - rewrite lookup_app, E. simpl. rewrite String.eqb_refl. reflexivity.
Qed.

Lemma lookup_setProp_other (k k' : string) (v : value) (ps : props) :
  k' <> k -> lookup k' (setProp k v ps) = lookup k' ps.
Proof.
  intros Hne. unfold setProp.
  destruct (hasKey k ps).
  - induction ps as [|[k0 v0] ps IH]; simpl; [reflexivity|].
    destruct (String.eqb k k0) eqn:Ek; simpl.
    + apply String.eqb_eq in Ek. subst k0.
      destruct (String.eqb k' k) eqn:Ek'.
      * apply String.eqb_eq in Ek'. contradiction.
      * exact IH.
    + destruct (String.eqb k' k0); [reflexivity | exact IH].
  - rewrite lookup_app. destruct (lookup k' ps); [reflexivity|].
    simpl. destruct (String.eqb k' k) eqn:Ek'; [|reflexivity].
    apply String.eqb_eq in Ek'. contradiction.
Qed.

Lemma lookup_omit_in (k : string) (ks : list string) (ps : props) :
  In k ks -> lookup k (omit ks ps) = None.
Proof.
  intros Hin. induction ps as [|[k' v'] ps IH]; simpl; [reflexivity|].
  destruct (existsb (String.eqb k') ks) eqn:Ex; simpl; [exact IH|].
  destruct (String.eqb k k') eqn:Ek; [|exact IH].
  apply String.eqb_eq in Ek. subst k'.
  assert (existsb (String.eqb k) ks = true) as Hx.
  { apply existsb_exists. exists k. split; [exact Hin | apply String.eqb_refl]. }
  congruence.
Qed.

Lemma lookup_omit_notin (k : string) (ks : list string) (ps : props) :
  ~ In k ks -> lookup k (omit ks ps) = lookup k ps.
Proof.
  intros Hnin. induction ps as [|[k' v'] ps IH]; simpl; [reflexivity|].
  destruct (existsb (String.eqb k') ks) eqn:Ex; simpl.
  - destruct (String.eqb k k') eqn:Ek; [|exact IH].
    apply String.eqb_eq in Ek. subst k'.
    apply existsb_exists in Ex. destruct Ex as [x [Hx Hk]].
    apply String.eqb_eq in Hk. subst x. contradiction.
  - destruct (String.eqb k k'); [reflexivity | exact IH].
Qed.

Lemma lookup_In (k : string) (v : value) (ps : props) :
  lookup k ps = Some v -> In k (map fst ps).
Proof.
  induction ps as [|[k' v'] ps IH]; simpl; [discriminate|].
  destruct (String.eqb k k') eqn:Ek.
  - apply String.eqb_eq in Ek. intros _. left. symmetry. exact Ek.
  - intros H. right. apply IH, H.
Qed.

Lemma lookup_notIn (k : string) (ps : props) :
  ~ In k (map fst ps) -> lookup k ps = None.
Proof.
  intros Hn. destruct (lookup k ps) eqn:E; [|reflexivity].
  exfalso. apply Hn. eapply lookup_In, E.
Qed.

(** In an object, where no key occurs twice, the order of the
    properties does not change what a key is bound to. *)
Lemma lookup_rev (k : string) (ps : props) :
  NoDup (map fst ps) -> lookup k (rev ps) = lookup k ps.
Proof.
  induction ps as [|[k' v'] ps IH]; intros Hnd; simpl; [reflexivity|].
  inversion Hnd as [|? ? Hnotin Hnd']; subst.
  rewrite lookup_app, (IH Hnd'). simpl.
  destruct (String.eqb k k') eqn:Ek.
  - apply String.eqb_eq in Ek. subst k'.
    rewrite (lookup_notIn _ _ Hnotin). reflexivity.
  - destruct (lookup k ps); reflexivity.
Qed.

Lemma lookup_rev_notIn (k : string) (ps : props) :
  ~ In k (map fst ps) -> lookup k (rev ps) = None.
Proof.
  intros Hn. apply lookup_notIn. rewrite map_rev, <- in_rev. exact Hn.
Qed.

(** Spreading [src] over [base]: a key of [src] takes the value [src]
    gives it last; any other key keeps what [base] had. *)
Lemma lookup_fold_setProp (k : string) (src base : props) :
  lookup k (fold_left (fun acc kv => setProp (fst kv) (snd kv) acc) src base)
  = match lookup k (rev src) with
    | Some v => Some v
    | None => lookup k base
    end.
Proof.
  revert base. induction src as [|[k' v'] src IH]; intros base; simpl.
  - reflexivity.
  - rewrite IH, lookup_app. destruct (lookup k (rev src)); [reflexivity|].
    simpl. destruct (String.eqb k k') eqn:Ek.
    + apply String.eqb_eq in Ek. subst k'. apply lookup_setProp_same.
    + apply lookup_setProp_other. intros ->.
      rewrite String.eqb_refl in Ek. discriminate.
Qed.

Lemma lookup_spread (k : string) (base : props) (v : value) :
  NoDup (map fst (ownEnumerable v)) ->
  lookup k (spread base v)
  = match lookup k (ownEnumerable v) with
    | Some x => Some x
    | None => lookup k base
    end.
Proof.
  intros Hnd. unfold spread. rewrite lookup_fold_setProp, (lookup_rev k _ Hnd).
  reflexivity.
Qed.

End JSFacts.

Import JSFacts.

(** ** [getSendOptions] *)

(** C6.  [getSendOptions(ownerAccount, options)] is the caller's options
    spread over the base [{ from: ownerAccount }]: every key the caller
    supplies keeps the caller's value, a caller-supplied [from] included;
    [from] is [ownerAccount] when the caller gives none; no other key
    appears; and without options the result is exactly
    [{ from: ownerAccount }]. *)
Theorem getSendOptions_caller_options_win :
  forall (ownerAccount options : value),
    getSendOptions ownerAccount options
      = VObj (spread [("from", ownerAccount)] options)
    /\ (NoDup (map fst (ownEnumerable options)) ->
        forall k v,
          lookup k (ownEnumerable options) = Some v ->
          get (getSendOptions ownerAccount options) k = Ok v)
    /\ (~ In "from" (map fst (ownEnumerable options)) ->
        get (getSendOptions ownerAccount options) "from" = Ok ownerAccount)
    /\ (forall k,
          k <> "from" ->
          ~ In k (map fst (ownEnumerable options)) ->
          get (getSendOptions ownerAccount options) k = Ok VUndefined)
    /\ getSendOptions ownerAccount VUndefined = VObj [("from", ownerAccount)]
    /\ getSendOptions ownerAccount VNull = VObj [("from", ownerAccount)].
Proof.
  intros ownerAccount options. unfold getSendOptions.
  split; [reflexivity|].
  split.
  { intros Hnd k v Hk. simpl. rewrite (lookup_spread k _ _ Hnd), Hk. reflexivity. }
  split.
  { intros Hk. simpl. unfold spread.
    rewrite lookup_fold_setProp, (lookup_rev_notIn _ _ Hk). reflexivity. }
  split.
  { intros k Hne Hk. simpl. unfold spread.
    rewrite lookup_fold_setProp, (lookup_rev_notIn _ _ Hk).
    simpl. destruct (String.eqb k "from") eqn:E; [|reflexivity].
    apply String.eqb_eq in E. contradiction. }
  split; reflexivity.
Qed.

Lemma getSendOptions_caller_options_win_witness :
  get (getSendOptions (VStr "0xA") (VObj [("gas", VNum 5); ("from", VStr "0xB")])) "from"
    = Ok (VStr "0xB")
  /\ get (getSendOptions (VStr "0xA") (VObj [("gas", VNum 5)])) "from"
    = Ok (VStr "0xA").
Proof.
  split.
  - apply (proj1 (proj2 (getSendOptions_caller_options_win
                           (VStr "0xA") (VObj [("gas", VNum 5); ("from", VStr "0xB")])))).
    + simpl. repeat constructor; simpl; intuition discriminate.
    + reflexivity.
  - apply (proj1 (proj2 (proj2 (getSendOptions_caller_options_win
                                  (VStr "0xA") (VObj [("gas", VNum 5)]))))).
    simpl. intuition discriminate.
Defined.

(** ** [EthersContractAdapter.call] *)

(** Running the monad: each step either passes its value on or ends the
    run with the rejection. *)
Ltac run :=
  unfold bind, lift, ret, throw, tryCatch in *; simpl in *.

(** C9.  Whatever the options, a [call] whose call data encodes and
    whose transaction formats sends exactly one request, an [eth_call]
    whose block parameter is the tag [latest], and what it settles with
    is computed from the node's answer to that request; no option
    enters the block parameter.  A [call] that cannot encode or cannot
    format rejects with that error before the node is asked. *)
Theorem call_reads_latest :
  forall (txs : Transactions) (this : EthersContractAdapter)
         (methodName : string) (params : list value) (options : value) (t : trace),
    (forall data formatted,
        encode this methodName params = Ok data ->
        formatCallTx txs (callTx this data options) = Ok formatted ->
        let request := ProviderSend "eth_call" [formatted; VStr "latest"] in
        snd (call txs this methodName params options t) = t ++ [request]
        /\ fst (call txs this methodName params options t)
           = (let* resHex := signer (ethersAdapter this) t request in
              let* f := interfaceFunction this methodName in
              let* rets := fn_decode f resHex in
              Ok (match rets with [v] => v | _ => VArr rets end)))
    /\ (forall e,
          encode this methodName params = Throw e ->
          call txs this methodName params options t = (Throw e, t))
    /\ (forall data e,
          encode this methodName params = Ok data ->
          formatCallTx txs (callTx this data options) = Throw e ->
          call txs this methodName params options t = (Throw e, t)).
Proof.
  intros txs this methodName params options t.
  unfold call, ethCall, providerSend, perform, bind, lift, ret.
  split; [|split].
  - intros data formatted Hdata Hfmt. rewrite Hdata, Hfmt.
    set (request := ProviderSend "eth_call" [formatted; VStr "latest"]).
    destruct (signer (ethersAdapter this) t request) as [resHex|e];
      [|split; reflexivity].
    cbn [rbind]. destruct (interfaceFunction this methodName) as [f|e];
      [|split; reflexivity].
    cbn [rbind]. destruct (fn_decode f resHex) as [rets|e]; [|split; reflexivity].
    destruct rets as [|v [|w rets]]; split; reflexivity.
  - intros e Hdata. rewrite Hdata. reflexivity.
  - intros data e Hdata Hfmt. rewrite Hdata, Hfmt. reflexivity.
Qed.

Lemma call_reads_latest_witness :
  let options := VObj [("block", VStr "earliest"); ("blockTag", VNum 5)] in
  call Ref.txs Ref.handle "balanceOf" [VStr Ref.account] options []
  = (Ok (VNum 7),
     [ProviderSend "eth_call"
        [VObj [("block", VStr "earliest"); ("blockTag", VNum 5);
               ("to", address Ref.handle); ("data", VStr "0x70a08231")];
         VStr "latest"]]).
Proof.
  intros options.
  destruct (proj1 (call_reads_latest Ref.txs Ref.handle "balanceOf"
                     [VStr Ref.account] options [])
                  "0x70a08231"
                  (VObj [("block", VStr "earliest"); ("blockTag", VNum 5);
                         ("to", address Ref.handle); ("data", VStr "0x70a08231")])
                  eq_refl eq_refl) as [Htrace Hresult].
  rewrite (surjective_pairing (call _ _ _ _ _ _)), Htrace, Hresult. reflexivity.
Defined.

(** C7.  For a method of the Abi whose call data encodes, whose
    [eth_call] resolves and whose return data decodes into one value per
    declared output: with exactly one declared output [call] resolves
    with that value itself, with two or more it resolves with the whole
    sequence, in order. *)
Theorem call_unwraps_single_return :
  forall (txs : Transactions) (this : EthersContractAdapter)
         (methodName : string) (params : list value) (options : value)
         (t t' : trace) (f : FunctionDescription) (data : string)
         (resHex : value) (rets : list value),
    findFunction methodName (contract_interface (contract this)) = Some f ->
    fn_encode f params = Ok data ->
    ethCall txs (ethersAdapter this) (callTx this data options) (VStr "latest") t
      = (Ok resHex, t') ->
    fn_decode f resHex = Ok rets ->
    List.length rets = List.length (fn_outputs f) ->
    (List.length (fn_outputs f) = 1 ->
       exists v, rets = [v]
                 /\ call txs this methodName params options t = (Ok v, t'))
    /\ (2 <= List.length (fn_outputs f) ->
        call txs this methodName params options t = (Ok (VArr rets), t')).
Proof.
  intros txs this methodName params options t t' f data resHex rets
         Hf Henc Hcall Hdec Hlen.
  assert (Hrun : call txs this methodName params options t
                 = (if Nat.eqb (List.length rets) 1
                    then Ok (hd VUndefined rets) else Ok (VArr rets), t')).
  { unfold call, encode, interfaceFunction. run. rewrite Hf. simpl.
    rewrite Henc. simpl. rewrite Hcall.
    simpl. rewrite Hdec. simpl.
    destruct (Nat.eqb (List.length rets) 1); reflexivity. }
  split.
  - intros Hone. rewrite Hone in Hlen.
    destruct rets as [|v [|w rets]]; simpl in Hlen; try discriminate.
    exists v. split; [reflexivity|]. rewrite Hrun. reflexivity.
  - intros Hmany. rewrite Hrun.
    destruct (Nat.eqb (List.length rets) 1) eqn:E; [|reflexivity].
    apply Nat.eqb_eq in E. lia.
Qed.

Lemma call_unwraps_single_return_witness :
  call Ref.txs Ref.handle "balanceOf" [VStr Ref.account] VUndefined []
    = (Ok (VNum 7),
       [ProviderSend "eth_call"
          [VObj [("to", VStr "0x00000000000000000000000000000000DeaDBeef");
                 ("data", VStr "0x70a08231")];
           VStr "latest"]])
  /\ call Ref.txs Ref.handle "getReserves" [] VUndefined []
    = (Ok (VArr [VNum 3; VNum 4]),
       [ProviderSend "eth_call"
          [VObj [("to", VStr "0x00000000000000000000000000000000DeaDBeef");
                 ("data", VStr "0x0902f1ac")];
           VStr "latest"]]).
Proof.
  split.
  - destruct (proj1 (call_unwraps_single_return
                       Ref.txs Ref.handle "balanceOf" [VStr Ref.account] VUndefined []
                       _ Ref.balanceOf "0x70a08231" (VStr "0x") [VNum 7]
                       eq_refl eq_refl eq_refl eq_refl eq_refl) eq_refl)
      as [v [Hv Hcall]].
    injection Hv as <-. exact Hcall.
  - apply (proj2 (call_unwraps_single_return
                    Ref.txs Ref.handle "getReserves" [] VUndefined []
                    _ Ref.getReserves "0x0902f1ac" (VStr "0x") [VNum 3; VNum 4]
                    eq_refl eq_refl eq_refl eq_refl eq_refl)).
    simpl. lia.
Defined.

(** ** [getCallRevertData] *)

Module StringFacts.

Lemma substring_all (s : string) : substring 0 (String.length s) s = s.
Proof. induction s as [|c s IH]; simpl; [reflexivity | rewrite IH; reflexivity]. Qed.

Lemma slice_app (p s : string) : slice (String.length p) (p ++ s) = s.
Proof.
  unfold slice. induction p as [|c p IH]; simpl.
  - rewrite Nat.sub_0_r. apply substring_all.
  - exact IH.
Qed.

Lemma slice_sentinel (hex : string) : slice 9 ("Reverted " ++ hex) = hex.
Proof. exact (slice_app "Reverted " hex). Qed.

Lemma startsWith_split (p s : string) :
  startsWith p s = true -> exists r, s = (p ++ r)%string.
Proof.
  unfold startsWith. revert s. induction p as [|c p IH]; intros s H.
  - exists s. reflexivity.
  - destruct s as [|d s]; simpl in H; [discriminate|].
    destruct (ascii_dec c d) as [->|]; [|discriminate].
    destruct (IH s H) as [r ->]. exists r. reflexivity.
Qed.

Lemma startsWith_app (p r : string) : startsWith p (p ++ r) = true.
Proof.
  unfold startsWith. induction p as [|c p IH]; simpl.
  - destruct r; reflexivity.
  - destruct (ascii_dec c c); [exact IH | contradiction].
Qed.

(** A decimal numeral begins with a digit, and so neither with [0x]
    nor like the word [undefined]. *)
Lemma string_of_nat_not_hash (n : nat) : startsWith "0x" (string_of_nat n) = false.
Proof.
  unfold string_of_nat. destruct (Nat.to_uint n) as [|u|u|u|u|u|u|u|u|u|u];
    try reflexivity; destruct u; reflexivity.
Qed.

Lemma string_of_nat_not_undefined (n : nat) :
  String.eqb "undefined" (string_of_nat n) = false.
Proof.
  unfold string_of_nat. destruct (Nat.to_uint n); reflexivity.
Qed.

Lemma indexed_key (vs : list value) (k : string) :
  In k (map fst (indexed vs)) -> exists n, k = string_of_nat n.
Proof.
  unfold indexed. intros Hin. apply in_map_iff in Hin.
  destruct Hin as [[k' v] [<- Hin]]. apply in_combine_l in Hin.
  apply in_map_iff in Hin. destruct Hin as [n [<- _]]. exists n. reflexivity.
Qed.

Lemma filter_none {A} (p : A -> bool) (l : list A) :
  (forall x, In x l -> p x = false) -> filter p l = [].
Proof.
  induction l as [|a l IH]; intros H; simpl; [reflexivity|].
  rewrite (H a (or_introl eq_refl)). apply IH. intros x Hx. apply H. right. exact Hx.
Qed.

Lemma indexed_no_hash (vs : list value) :
  filter (startsWith "0x") (map fst (indexed vs) ++ ["length"]) = [].
Proof.
  apply filter_none. intros k Hin. apply in_app_or in Hin.
  destruct Hin as [Hin|[<-|[]]]; [|reflexivity].
  destruct (indexed_key _ _ Hin) as [n ->]. apply string_of_nat_not_hash.
Qed.

Lemma indexed_no_undefined (vs : list value) :
  lookup "undefined" (indexed vs) = None.
Proof.
  apply lookup_notIn. intros Hin. destruct (indexed_key _ _ Hin) as [n Hn].
  pose proof (string_of_nat_not_undefined n) as H. rewrite <- Hn in H.
  discriminate.
Qed.

End StringFacts.

Import StringFacts.

Lemma get_throws_TypeError (v : value) (k : string) (e : exn) :
  get v k = Throw e -> exists msg, e = TypeError msg.
Proof.
  destruct v; simpl; try discriminate;
    try (intros H; injection H as <-; eexists; reflexivity);
    destruct (String.eqb k "length"); discriminate.
Qed.

Lemma getExn_throws_TypeError (e : exn) (k : string) (e' : exn) :
  getExn e k = Throw e' -> exists msg, e' = TypeError msg.
Proof.
  destruct e; simpl; try discriminate. apply get_throws_TypeError.
Qed.

(** The Ganache branch on a mapping: the first own key that begins with
    [0x] selects the entry, whose [return] field is the result. *)
Lemma ganacheRevertData_entry (ps : props) (k : string) (entry : value) :
  hd_error (filter (startsWith "0x") (map fst ps)) = Some k ->
  lookup k ps = Some entry ->
  ganacheRevertData (VObj ps) = get entry "return".
Proof.
  intros Hk Hentry. unfold ganacheRevertData. simpl.
  destruct (filter (startsWith "0x") (map fst ps)) as [|k' rest]; [discriminate|].
  injection Hk as ->. simpl. rewrite Hentry. reflexivity.
Qed.

(** The Ganache branch on anything without a candidate key: reading
    [return] from an entry that is not there is a TypeError. *)
Lemma ganacheRevertData_no_candidate (data : value) :
  match data with VStr _ => True | _ => noCandidateKey data = true end ->
  exists msg, ganacheRevertData data = Throw (TypeError msg).
Proof.
  unfold ganacheRevertData. destruct data as [| | b | n | s | vs | ps]; simpl;
    intros H; try (eexists; reflexivity).
  - rewrite indexed_no_hash. simpl. rewrite indexed_no_undefined.
    simpl. eexists; reflexivity.
  - rewrite indexed_no_hash. simpl. rewrite indexed_no_undefined.
    simpl. eexists; reflexivity.
  - assert (filter (startsWith "0x") (map fst ps) = []) as ->.
    { apply filter_none. intros k Hin.
      rewrite forallb_forall in H. specialize (H k Hin).
      apply andb_true_iff in H. destruct H as [H _].
      apply negb_true_iff in H. exact H. }
    simpl.
    assert (lookup "undefined" ps = None) as ->.
    { apply lookup_notIn. intros Hin.
      rewrite forallb_forall in H. specialize (H _ Hin).
      apply andb_true_iff in H. destruct H as [_ H]. discriminate H. }
    simpl. eexists; reflexivity.
Qed.

(** Data without a candidate key is in particular none of the shapes
    the specification calls recognized. *)
Lemma noCandidateKey_not_recognized (data : value) :
  noCandidateKey data = true -> recognizedShape data = false.
Proof.
  destruct data as [| | b | n | s | vs | ps]; simpl; try reflexivity.
  - intros H. apply negb_true_iff in H. exact H.
  - intros H. induction ps as [|[k v] ps IH]; simpl in *; [reflexivity|].
    apply andb_true_iff in H. destruct H as [Hk Hps].
    apply andb_true_iff in Hk. destruct Hk as [Hk _].
    apply negb_true_iff in Hk. rewrite Hk. simpl. apply IH, Hps.
Qed.

(** C3.  The fallback chain of [getCallRevertData], in order: a call
    that resolves gives its return data; a rejection whose [data] is a
    string beginning [Reverted 0x] gives that string from position 9,
    the hex behind the word [Reverted] and the blank; otherwise [data]
    is read as a mapping, the first own key beginning [0x] selects an
    entry and the result is that entry's [return] field.  Hence one
    revert payload, presented in any of the three shapes, comes back as
    the same hex. *)
Theorem getCallRevertData_fallback_chain :
  forall (txs : Transactions) (this : EthersAdapter) (tx block : value)
         (t t' : trace),
    (forall hex,
        ethCall txs this tx block t = (Ok hex, t') ->
        getCallRevertData txs this tx block t = (Ok hex, t'))
    /\ (forall e s,
          ethCall txs this tx block t = (Throw e, t') ->
          getExn e "data" = Ok (VStr s) ->
          startsWith "Reverted 0x" s = true ->
          getCallRevertData txs this tx block t = (Ok (VStr (slice 9 s)), t')
          /\ exists rest, s = ("Reverted 0x" ++ rest)%string
                          /\ slice 9 s = ("0x" ++ rest)%string)
    /\ (forall e ps k entry,
          ethCall txs this tx block t = (Throw e, t') ->
          getExn e "data" = Ok (VObj ps) ->
          hd_error (filter (startsWith "0x") (map fst ps)) = Some k ->
          lookup k ps = Some entry ->
          getCallRevertData txs this tx block t = (get entry "return", t'))
    /\ (forall hex,
          startsWith "0x" hex = true ->
          ethCall txs this tx block t = (Ok (VStr hex), t')
          \/ (exists e,
                ethCall txs this tx block t = (Throw e, t')
                /\ (getExn e "data" = Ok (VStr ("Reverted " ++ hex))
                    \/ exists ps k entry,
                        getExn e "data" = Ok (VObj ps)
                        /\ hd_error (filter (startsWith "0x") (map fst ps)) = Some k
                        /\ lookup k ps = Some entry
                        /\ get entry "return" = Ok (VStr hex))) ->
          getCallRevertData txs this tx block t = (Ok (VStr hex), t')).
Proof.
  intros txs this tx block t t'.
  assert (Hsentinel : forall e s,
             ethCall txs this tx block t = (Throw e, t') ->
             getExn e "data" = Ok (VStr s) ->
             startsWith "Reverted 0x" s = true ->
             getCallRevertData txs this tx block t = (Ok (VStr (slice 9 s)), t')).
  { intros e s Hcall Hdata Hs. unfold getCallRevertData, tryCatch.
    rewrite Hcall. unfold lift, revertDataOfError. rewrite Hdata. simpl.
    rewrite Hs. reflexivity. }
  assert (Hmapping : forall e ps k entry,
             ethCall txs this tx block t = (Throw e, t') ->
             getExn e "data" = Ok (VObj ps) ->
             hd_error (filter (startsWith "0x") (map fst ps)) = Some k ->
             lookup k ps = Some entry ->
             getCallRevertData txs this tx block t = (get entry "return", t')).
  { intros e ps k entry Hcall Hdata Hk Hentry. unfold getCallRevertData, tryCatch.
    rewrite Hcall. unfold lift, revertDataOfError. rewrite Hdata.
    unfold rbind at 1. rewrite (ganacheRevertData_entry _ _ _ Hk Hentry).
    reflexivity. }
  split; [|split; [|split]].
  - intros hex Hcall. unfold getCallRevertData, tryCatch. rewrite Hcall. reflexivity.
  - intros e s Hcall Hdata Hs. split; [exact (Hsentinel e s Hcall Hdata Hs)|].
    destruct (startsWith_split _ _ Hs) as [rest ->]. exists rest.
    split; [reflexivity|]. apply (slice_sentinel ("0x" ++ rest)).
  - exact Hmapping.
  - intros hex Hhex [Hcall | [e [Hcall [Hdata | [ps [k [entry [Hdata [Hk [Hentry Hret]]]]]]]]]].
    + unfold getCallRevertData, tryCatch. rewrite Hcall. reflexivity.
    + rewrite (Hsentinel e _ Hcall Hdata).
      * rewrite slice_sentinel. reflexivity.
      * destruct (startsWith_split _ _ Hhex) as [rest ->].
        apply (startsWith_app "Reverted 0x" rest).
    + rewrite (Hmapping e ps k entry Hcall Hdata Hk Hentry), Hret. reflexivity.
Qed.

Lemma getCallRevertData_fallback_chain_witness :
  let payload := "0x08c379a0" in
  let tx := VObj [("to", VStr Ref.stranger)] in
  let sent := [ProviderSend "eth_call" [tx; VNum 12]] in
  let openEthereum := Thrown (VObj [("data", VStr "Reverted 0x08c379a0")]) in
  let ganache :=
    Thrown (VObj [("data",
                   VObj [("stack", VStr "at ..."); ("name", VStr "RuntimeError");
                         ("0xabcd", VObj [("error", VStr "revert");
                                          ("return", VStr payload)])])]) in
  getCallRevertData Ref.txs (Ref.adapterWith (Ok (VStr payload))) tx (VNum 12) []
    = (Ok (VStr payload), sent)
  /\ getCallRevertData Ref.txs (Ref.adapterWith (Throw openEthereum)) tx (VNum 12) []
    = (Ok (VStr payload), sent)
  /\ getCallRevertData Ref.txs (Ref.adapterWith (Throw ganache)) tx (VNum 12) []
    = (Ok (VStr payload), sent).
Proof.
  intros payload tx sent openEthereum ganache.
  split; [|split].
  - apply (proj2 (proj2 (proj2 (getCallRevertData_fallback_chain
             Ref.txs (Ref.adapterWith (Ok (VStr payload))) tx (VNum 12) [] sent)))
             payload eq_refl).
    left. reflexivity.
  - apply (proj2 (proj2 (proj2 (getCallRevertData_fallback_chain
             Ref.txs (Ref.adapterWith (Throw openEthereum)) tx (VNum 12) [] sent)))
             payload eq_refl).
    right. exists openEthereum. split; [reflexivity|]. left. reflexivity.
  - apply (proj2 (proj2 (proj2 (getCallRevertData_fallback_chain
             Ref.txs (Ref.adapterWith (Throw ganache)) tx (VNum 12) [] sent)))
             payload eq_refl).
    right. exists ganache. split; [reflexivity|]. right.
    exists [("stack", VStr "at ..."); ("name", VStr "RuntimeError");
            ("0xabcd", VObj [("error", VStr "revert"); ("return", VStr payload)])],
      "0xabcd", (VObj [("error", VStr "revert"); ("return", VStr payload)]).
    repeat split; reflexivity.
Defined.

(** C2, as the specification words it, fails: an error whose [data] is a
    mapping with a hash-like key whose entry has no [return] field is
    none of the recognized shapes, yet [getCallRevertData] resolves,
    with [undefined]. *)
Lemma getCallRevertData_resolves_undefined :
  let data := VObj [("0xabcd", VObj [("error", VStr "revert")])] in
  let e := Thrown (VObj [("message", VStr "VM Exception"); ("data", data)]) in
  let tx := VObj [("to", VStr Ref.stranger)] in
  let sent := [ProviderSend "eth_call" [tx; VStr "latest"]] in
  getExn e "data" = Ok data
  /\ recognizedShape data = false
  /\ ethCall Ref.txs (Ref.adapterWith (Throw e)) tx (VStr "latest") [] = (Throw e, sent)
  /\ getCallRevertData Ref.txs (Ref.adapterWith (Throw e)) tx (VStr "latest") []
     = (Ok VUndefined, sent).
Proof. repeat split; reflexivity. Qed.

(** C2, amended.  When the call fails with an error in which the
    [catch] clause finds nothing to read (the error or its [data] is
    undefined or null, or [data] is a string without the sentinel, a
    number, a boolean, an array, or a mapping with no key that begins
    with [0x] or is spelled [undefined]), [getCallRevertData] rejects
    with a TypeError; it does not resolve. *)
Theorem getCallRevertData_raises_without_candidate :
  forall (txs : Transactions) (this : EthersAdapter) (tx block : value)
         (t t' : trace) (e : exn),
    ethCall txs this tx block t = (Throw e, t') ->
    (forall data, getExn e "data" = Ok data -> noCandidateKey data = true) ->
    exists msg,
      getCallRevertData txs this tx block t = (Throw (TypeError msg), t').
Proof.
  intros txs this tx block t t' e Hcall Hshape.
  unfold getCallRevertData, tryCatch. rewrite Hcall.
  unfold lift, revertDataOfError.
  destruct (getExn e "data") as [data|e'] eqn:Hdata; simpl.
  - specialize (Hshape data eq_refl).
    assert (Hg : exists msg, ganacheRevertData data = Throw (TypeError msg)).
    { apply ganacheRevertData_no_candidate. destruct data; try exact Hshape. exact I. }
    destruct Hg as [msg Hg].
    destruct data as [| | b | n | s | vs | ps]; try (exists msg; rewrite Hg; reflexivity).
    simpl in Hshape. apply negb_true_iff in Hshape. rewrite Hshape.
    exists msg. rewrite Hg. reflexivity.
  - destruct (getExn_throws_TypeError _ _ _ Hdata) as [msg ->].
    exists msg. reflexivity.
Qed.

Lemma getCallRevertData_raises_without_candidate_witness :
  let e := Thrown (VObj [("message", VStr "connection refused")]) in
  let tx := VObj [("to", VStr Ref.stranger)] in
  exists msg,
    getCallRevertData Ref.txs (Ref.adapterWith (Throw e)) tx (VStr "latest") []
    = (Throw (TypeError msg), [ProviderSend "eth_call" [tx; VStr "latest"]]).
Proof.
  intros e tx.
  apply (getCallRevertData_raises_without_candidate
           Ref.txs (Ref.adapterWith (Throw e)) tx (VStr "latest") [] _ e eq_refl).
  intros data Hdata. injection Hdata as <-. reflexivity.
Defined.

(** ** [checkFromAddress] *)

Lemma strictNeStr_false (s : string) (v : value) :
  strictNeStr s v = false <-> v = VStr s.
Proof.
  destruct v; simpl; try (split; [discriminate|intros H; discriminate H]).
  rewrite negb_false_iff, String.eqb_eq. split; [intros ->; reflexivity|].
  intros H. injection H as ->. reflexivity.
Qed.

Lemma strictNeStr_true (s a : string) :
  strictNeStr s (VStr a) = true <-> s <> a.
Proof. simpl. rewrite negb_true_iff. apply String.eqb_neq. Qed.

Lemma submissions_app (t u : trace) :
  submissions (t ++ u) = submissions t ++ submissions u.
Proof. apply filter_app. Qed.

Lemma submissions_getAddress (t : trace) :
  submissions (t ++ [SignerGetAddress]) = submissions t.
Proof. rewrite submissions_app. simpl. apply app_nil_r. Qed.

(** [checkFromAddress] step by step: ask the signer for its account,
    normalize [from], compare. *)
Lemma checkFromAddress_run (this : EthersAdapter) (from : value) (t : trace) :
  checkFromAddress this from t
  = (match signer this t SignerGetAddress with
     | Throw e => Throw e
     | Ok expectedFrom =>
         match utils_getAddress (ethers this) from with
         | Throw e => Throw e
         | Ok normalized =>
             if strictNeStr normalized expectedFrom
             then Throw (addressMismatchError expectedFrom from)
             else Ok tt
         end
     end, t ++ [SignerGetAddress]).
Proof.
  unfold checkFromAddress, getAccount, perform. run.
  destruct (signer this t SignerGetAddress) as [expectedFrom|e]; [|reflexivity].
  destruct (utils_getAddress (ethers this) from) as [normalized|e]; [|reflexivity].
  destruct (strictNeStr normalized expectedFrom); reflexivity.
Qed.

Lemma checkFromAddress_ok (this : EthersAdapter) (from : value) (t : trace) :
  fst (checkFromAddress this from t) = Ok tt <-> verifiedSender this t from.
Proof.
  rewrite checkFromAddress_run. simpl. unfold verifiedSender. split.
  - destruct (signer this t SignerGetAddress) as [expectedFrom|e]; [|discriminate].
    destruct (utils_getAddress (ethers this) from) as [normalized|e]; [|discriminate].
    destruct (strictNeStr normalized expectedFrom) eqn:E; [discriminate|].
    intros _. apply strictNeStr_false in E. subst expectedFrom.
    exists normalized. split; reflexivity.
  - intros [account [-> ->]]. simpl. rewrite String.eqb_refl. reflexivity.
Qed.

(** C4, amended.  With [account] the account the signer controls:
    for a [from] the library accepts as an address, with checksum form
    [normalized], [checkFromAddress(from)] rejects with the address
    mismatch error exactly when [normalized] differs from [account] and
    resolves exactly when they are equal; in particular it resolves for
    every accepted spelling that differs from the checksum form of the
    account only in letter case.  For a [from] the library does not
    accept it rejects with the library's error.  The only request it
    makes is the one for the account. *)
Theorem checkFromAddress_spec :
  forall (this : EthersAdapter) (from : value) (account : string) (t : trace),
    signer this t SignerGetAddress = Ok (VStr account) ->
    (forall normalized,
        utils_getAddress (ethers this) from = Ok normalized ->
        (checkFromAddress this from t
           = (Throw (addressMismatchError (VStr account) from),
              t ++ [SignerGetAddress])
         <-> normalized <> account)
        /\ (checkFromAddress this from t = (Ok tt, t ++ [SignerGetAddress])
            <-> normalized = account))
    /\ (forall spelling normalized,
          from = VStr spelling ->
          utils_getAddress (ethers this) (VStr spelling) = Ok normalized ->
          caseInsensitive (ethers this) ->
          utils_getAddress (ethers this) (VStr account) = Ok account ->
          toLowerCase spelling = toLowerCase account ->
          checkFromAddress this from t = (Ok tt, t ++ [SignerGetAddress]))
    /\ (forall e,
          utils_getAddress (ethers this) from = Throw e ->
          checkFromAddress this from t = (Throw e, t ++ [SignerGetAddress])).
Proof.
  intros this from account t Hacct.
  rewrite checkFromAddress_run, Hacct.
  split; [|split].
  - intros normalized Hnorm. rewrite Hnorm.
    destruct (strictNeStr normalized (VStr account)) eqn:E.
    + apply strictNeStr_true in E. split.
      * split; [intros _; exact E | reflexivity].
      * split; [discriminate | intros Heq; contradiction].
    + apply strictNeStr_false in E. injection E as ->. split.
      * split; [discriminate | intros Hne; contradiction].
      * split; reflexivity.
  - intros spelling normalized -> Hnorm Hcase Hcanon Hlower. rewrite Hnorm.
    rewrite (Hcase _ _ _ _ Hnorm Hcanon Hlower). simpl.
    rewrite String.eqb_refl. reflexivity.
  - intros e ->. reflexivity.
Qed.

(** The reference library normalizes through the lower-case digits of
    the address, whatever the case it was written in. *)
Module RefFacts.

Lemma toLowerCase_length (s : string) :
  String.length (toLowerCase s) = String.length s.
Proof. induction s as [|c s IH]; simpl; [reflexivity | rewrite IH; reflexivity]. Qed.

Lemma addressBody_cases (address body : string) :
  Ref.addressBody address = Some body ->
  String.length body = 40
  /\ (address = body \/ address = ("0x" ++ body)%string).
Proof.
  unfold Ref.addressBody.
  destruct (Nat.eqb (String.length address) 40 && Hex.isDigits address) eqn:E.
  - intros H. injection H as <-. apply andb_true_iff in E. destruct E as [E _].
    apply Nat.eqb_eq in E. split; [exact E | left; reflexivity].
  - destruct address as [|c0 [|c1 rest]];
      [discriminate | destruct c0 as [[] [] [] [] [] [] [] []]; discriminate |].
    destruct c0 as [[] [] [] [] [] [] [] []]; cbv iota; try discriminate.
    destruct c1 as [[] [] [] [] [] [] [] []]; cbv iota; try discriminate.
    destruct (Nat.eqb (String.length rest) 40 && Hex.isDigits rest) eqn:E';
      [|discriminate].
    intros H. injection H as <-. apply andb_true_iff in E'. destruct E' as [E' _].
    apply Nat.eqb_eq in E'. split; [exact E' | right; reflexivity].
Qed.

Lemma getAddress_checksum (address normalized : string) :
  Ref.getAddress (VStr address) = Ok normalized ->
  exists body,
    Ref.addressBody address = Some body
    /\ normalized = Ref.getChecksumAddress body.
Proof.
  simpl. destruct (Ref.addressBody address) as [body|]; [|discriminate].
  destruct (Ref.mixedCase body && _); [discriminate|].
  intros H. injection H as <-. exists body. split; reflexivity.
Qed.

Lemma getAddress_caseInsensitive : caseInsensitive Ref.utils.
Proof.
  intros a b na nb Ha Hb Hlower. simpl in Ha, Hb.
  destruct (getAddress_checksum _ _ Ha) as [ba [Hba ->]].
  destruct (getAddress_checksum _ _ Hb) as [bb [Hbb ->]].
  destruct (addressBody_cases _ _ Hba) as [La Ca].
  destruct (addressBody_cases _ _ Hbb) as [Lb Cb].
  assert (Hbody : toLowerCase ba = toLowerCase bb).
  { pose proof (f_equal String.length Hlower) as Hlen.
    rewrite !toLowerCase_length in Hlen.
    destruct Ca as [-> | ->], Cb as [-> | ->]; simpl in Hlen, Hlower.
    - exact Hlower.
    - lia.
    - lia.
    - injection Hlower as H. exact H. }
  unfold Ref.getChecksumAddress. rewrite Hbody. reflexivity.
Qed.

Lemma lowerChar_idempotent (c : ascii) : lowerChar (lowerChar c) = lowerChar c.
Proof. destruct c as [[] [] [] [] [] [] [] []]; reflexivity. Qed.

Lemma lowerChar_isDigit (c : ascii) : Hex.isDigit (lowerChar c) = Hex.isDigit c.
Proof. destruct c as [[] [] [] [] [] [] [] []]; reflexivity. Qed.

Lemma lowerChar_not_upper (c : ascii) : Ref.isUpperHex (lowerChar c) = false.
Proof. destruct c as [[] [] [] [] [] [] [] []]; reflexivity. Qed.

Lemma toLowerCase_idempotent (s : string) :
  toLowerCase (toLowerCase s) = toLowerCase s.
Proof.
  induction s as [|c s IH]; simpl; [reflexivity|].
  rewrite lowerChar_idempotent, IH. reflexivity.
Qed.

Lemma toLowerCase_isDigits (s : string) :
  Hex.isDigits (toLowerCase s) = Hex.isDigits s.
Proof.
  induction s as [|c s IH]; simpl; [reflexivity|].
  rewrite lowerChar_isDigit, IH. reflexivity.
Qed.

Lemma toLowerCase_not_mixed (s : string) : Ref.mixedCase (toLowerCase s) = false.
Proof.
  unfold Ref.mixedCase.
  assert (Ref.hasChar Ref.isUpperHex (toLowerCase s) = false) as ->;
    [|reflexivity].
  induction s as [|c s IH]; simpl; [reflexivity|].
  rewrite lowerChar_not_upper, IH. reflexivity.
Qed.

Lemma addressBody_digits (address body : string) :
  Ref.addressBody address = Some body -> Hex.isDigits body = true.
Proof.
  unfold Ref.addressBody.
  destruct (Nat.eqb (String.length address) 40 && Hex.isDigits address) eqn:E.
  - intros H. injection H as <-. apply andb_true_iff in E. apply E.
  - destruct address as [|c0 [|c1 rest]];
      [discriminate | destruct c0 as [[] [] [] [] [] [] [] []]; discriminate |].
    destruct c0 as [[] [] [] [] [] [] [] []]; cbv iota; try discriminate.
    destruct c1 as [[] [] [] [] [] [] [] []]; cbv iota; try discriminate.
    destruct (Nat.eqb (String.length rest) 40 && Hex.isDigits rest) eqn:E';
      [|discriminate].
    intros H. injection H as <-. apply andb_true_iff in E'. apply E'.
Qed.

Lemma addressBody_lower (address body : string) :
  Ref.addressBody address = Some body ->
  Ref.addressBody (toLowerCase address) = Some (toLowerCase body).
Proof.
  intros H. pose proof (addressBody_digits _ _ H) as Hd.
  destruct (addressBody_cases _ _ H) as [Hlen [-> | ->]].
  - unfold Ref.addressBody.
    rewrite toLowerCase_length, Hlen, toLowerCase_isDigits, Hd. reflexivity.
  - change (toLowerCase ("0x" ++ body)) with ("0x" ++ toLowerCase body)%string.
    unfold Ref.addressBody. cbn [append String.length].
    rewrite toLowerCase_length, Hlen, toLowerCase_isDigits, Hd. reflexivity.
Qed.

(** The lower-case spelling of an address the reference library accepts
    is accepted too, with the same checksum form. *)
Lemma getAddress_lower (address normalized : string) :
  Ref.getAddress (VStr address) = Ok normalized ->
  Ref.getAddress (VStr (toLowerCase address)) = Ok normalized.
Proof.
  intros H. destruct (getAddress_checksum _ _ H) as [body [Hbody ->]].
  unfold Ref.getAddress. rewrite (addressBody_lower _ _ Hbody).
  rewrite toLowerCase_not_mixed. cbn [andb].
  unfold Ref.getChecksumAddress. rewrite toLowerCase_idempotent. reflexivity.
Qed.

End RefFacts.

(** With the reference library the letter-case clause is not empty: the
    lower-case spelling of the account always passes. *)
Lemma checkFromAddress_lowercase_reference
      (this : EthersAdapter) (account : string) (t : trace) :
  ethers this = Ref.utils ->
  signer this t SignerGetAddress = Ok (VStr account) ->
  Ref.getAddress (VStr account) = Ok account ->
  checkFromAddress this (VStr (toLowerCase account)) t
  = (Ok tt, t ++ [SignerGetAddress]).
Proof.
  intros Hlib Hacct Hcanon.
  rewrite checkFromAddress_run, Hacct, Hlib.
  cbn [utils_getAddress Ref.utils]. rewrite (RefFacts.getAddress_lower _ _ Hcanon).
  simpl. rewrite String.eqb_refl. reflexivity.
Qed.

Lemma checkFromAddress_spec_witness :
  checkFromAddress Ref.adapter (VStr "0x4d1a2e2bb4f88f0250f26ffff098b0b30b26bf38") []
    = (Ok tt, [SignerGetAddress])
  /\ checkFromAddress Ref.adapter (VStr Ref.stranger) []
     = (Throw (addressMismatchError (VStr Ref.account) (VStr Ref.stranger)),
        [SignerGetAddress])
  /\ checkFromAddress Ref.adapter (VStr "0x4d1a") []
     = (Throw (Ref.invalid "invalid address"), [SignerGetAddress]).
Proof.
  split; [|split].
  - apply (proj1 (proj2 (checkFromAddress_spec
             Ref.adapter (VStr "0x4d1a2e2bb4f88f0250f26ffff098b0b30b26bf38")
             Ref.account [] eq_refl))
             "0x4d1a2e2bb4f88f0250f26ffff098b0b30b26bf38" Ref.account eq_refl
             ltac:(vm_compute; reflexivity)
             RefFacts.getAddress_caseInsensitive).
    + vm_compute; reflexivity.
    + reflexivity.
  - apply (proj1 (proj1 (checkFromAddress_spec
             Ref.adapter (VStr Ref.stranger) Ref.account [] eq_refl)
             Ref.stranger ltac:(vm_compute; reflexivity))).
    discriminate.
  - apply (proj2 (proj2 (checkFromAddress_spec
             Ref.adapter (VStr "0x4d1a") Ref.account [] eq_refl))).
    reflexivity.
Defined.

(** C4, as the specification words it, fails: a spelling of the account
    that differs from its checksum form in letter case only, but is
    written in mixed case, carries a wrong checksum; the library rejects
    it, and [checkFromAddress] neither resolves nor rejects with the
    address mismatch error. *)
Lemma checkFromAddress_rejects_case_variant :
  let spelling := "0x4d1A2e2bB4F88F0250f26Ffff098B0b30B26BF38" in
  toLowerCase spelling = toLowerCase Ref.account
  /\ signer Ref.adapter [] SignerGetAddress = Ok (VStr Ref.account)
  /\ Ref.getAddress (VStr Ref.account) = Ok Ref.account
  /\ checkFromAddress Ref.adapter (VStr spelling) []
     = (Throw (Ref.invalid "bad address checksum"), [SignerGetAddress])
  /\ checkFromAddress Ref.adapter (VStr spelling) []
     <> (Ok tt, [SignerGetAddress])
  /\ checkFromAddress Ref.adapter (VStr spelling) []
     <> (Throw (addressMismatchError (VStr Ref.account) (VStr spelling)),
         [SignerGetAddress]).
Proof.
  intros spelling.
  assert (Hrun : checkFromAddress Ref.adapter (VStr spelling) []
                 = (Throw (Ref.invalid "bad address checksum"), [SignerGetAddress]))
    by (vm_compute; reflexivity).
  split; [reflexivity|]. split; [reflexivity|].
  split; [vm_compute; reflexivity|]. split; [exact Hrun|].
  rewrite Hrun. split; discriminate.
Qed.

(** ** Sending: [ethSendTransaction] and [EthersContractAdapter.send] *)

Lemma get_defined (v : value) (k k' : string) (x : value) :
  get v k = Ok x -> exists y, get v k' = Ok y.
Proof.
  destruct v; simpl; try discriminate; intros _;
    try (eexists; reflexivity);
    destruct (String.eqb k' "length"); eexists; reflexivity.
Qed.

(** [ethSendTransaction] step by step. *)
Lemma ethSendTransaction_run
      (txs : Transactions) (this : EthersAdapter) (tx : value) (t : trace) :
  ethSendTransaction txs this tx t
  = match normalizeGasLimit txs tx with
    | Throw e => (Throw e, t)
    | Ok normalized =>
        match get normalized "from", get normalized "gas" with
        | Throw e, _ => (Throw e, t)
        | Ok _, Throw e => (Throw e, t)
        | Ok from, Ok gas =>
            match fst (checkFromAddress this from t) with
            | Throw e => (Throw e, t ++ [SignerGetAddress])
            | Ok _ =>
                let request := SignerSendTransaction (sendOverrides normalized gas) in
                let t' := t ++ [SignerGetAddress] in
                match signer this t' request with
                | Throw e => (Throw e, t' ++ [request])
                | Ok response =>
                    match get response "hash" with
                    | Throw e => (Throw e, t' ++ [request])
                    | Ok hash =>
                        (Ok (VObj [("transactionResponse", response); ("hash", hash)]),
                         t' ++ [request])
                    end
                end
            end
        end
    end.
Proof.
  unfold ethSendTransaction, bind, lift, ret.
  destruct (normalizeGasLimit txs tx) as [normalized|e]; [|reflexivity].
  destruct (get normalized "from") as [from|e]; [|reflexivity].
  destruct (get normalized "gas") as [gas|e]; [|reflexivity].
  rewrite checkFromAddress_run. cbn [fst].
  destruct (signer this t SignerGetAddress) as [expectedFrom|e]; [|reflexivity].
  destruct (utils_getAddress (ethers this) from) as [a|e]; [|reflexivity].
  destruct (strictNeStr a expectedFrom); [reflexivity|].
  unfold perform.
  destruct (signer this (t ++ [SignerGetAddress]) _) as [response|e]; [|reflexivity].
  destruct (get response "hash"); reflexivity.
Qed.

(** [send] with options supplied, step by step. *)
Lemma send_run
      (txs : Transactions) (this : EthersContractAdapter)
      (methodName : string) (params : list value) (options : value) (t : trace) :
  notNullish options = true ->
  send txs this methodName params options t
  = match normalizeGasLimit txs options with
    | Throw e => (Throw e, t)
    | Ok normalized =>
        match get normalized "from", get normalized "gas" with
        | Throw e, _ => (Throw e, t)
        | Ok _, Throw e => (Throw e, t)
        | Ok from, Ok gas =>
            match fst (checkFromAddress (ethersAdapter this) from t) with
            | Throw e => (Throw e, t ++ [SignerGetAddress])
            | Ok _ =>
                let t' := t ++ [SignerGetAddress] in
                match findFunction methodName (contract_interface (contract this)) with
                | None =>
                    (Throw (TypeError "this.contract.functions[methodName] is not a function"),
                     t')
                | Some _ =>
                    let request :=
                      ContractFunction (address this) methodName
                        (params ++ [sendOverrides normalized gas]) in
                    match signer (ethersAdapter this) t' request with
                    | Throw e => (Throw e, t' ++ [request])
                    | Ok response =>
                        match get response "hash" with
                        | Throw e => (Throw e, t' ++ [request])
                        | Ok hash =>
                            (Ok (VObj [("transactionResponse", response);
                                       ("hash", hash)]),
                             t' ++ [request])
                        end
                    end
                end
            end
        end
    end.
Proof.
  intros Hopt. unfold send, bind, lift, ret. rewrite Hopt.
  destruct (normalizeGasLimit txs options) as [normalized|e]; [|reflexivity].
  destruct (get normalized "from") as [from|e]; [|reflexivity].
  destruct (get normalized "gas") as [gas|e]; [|reflexivity].
  rewrite checkFromAddress_run. cbn [fst].
  destruct (signer (ethersAdapter this) t SignerGetAddress) as [expectedFrom|e];
    [|reflexivity].
  destruct (utils_getAddress (ethers (ethersAdapter this)) from) as [a|e];
    [|reflexivity].
  destruct (strictNeStr a expectedFrom); [reflexivity|].
  unfold contractFunction, throw, perform.
  destruct (findFunction methodName (contract_interface (contract this)));
    [|reflexivity].
  destruct (signer (ethersAdapter this) (t ++ [SignerGetAddress]) _)
    as [response|e]; [|reflexivity].
  destruct (get response "hash"); reflexivity.
Qed.



(** ** [EthersContractAdapter.estimateGas] *)

(** [estimateGas] step by step. *)
Lemma estimateGas_run
      (txs : Transactions) (this : EthersContractAdapter)
      (methodName : string) (params : list value) (options : value) (t : trace) :
  estimateGas txs this methodName params options t
  = let dispatch args :=
      match findFunction methodName (contract_interface (contract this)) with
      | None =>
          (Throw (TypeError "this.contract.estimate[methodName] is not a function"), t)
      | Some _ =>
          let request := ContractEstimate (address this) methodName args in
          (rbind (signer (ethersAdapter this) t request) toNumber, t ++ [request])
      end in
    if falsy options then dispatch params
    else
      match normalizeGasLimit txs options with
      | Throw e => (Throw e, t)
      | Ok normalized =>
          match get normalized "gas" with
          | Throw e => (Throw e, t)
          | Ok gas => dispatch (params ++ [estimateOverrides normalized gas])
          end
      end.
Proof.
  unfold estimateGas, contractEstimate, bind, lift, throw, perform. cbv zeta.
  destruct (falsy options).
  - destruct (findFunction methodName (contract_interface (contract this)));
      [|reflexivity].
    destruct (signer (ethersAdapter this) t _); reflexivity.
  - destruct (normalizeGasLimit txs options) as [normalized|e]; [|reflexivity].
    destruct (get normalized "gas") as [gas|e]; [|reflexivity].
    destruct (findFunction methodName (contract_interface (contract this)));
      [|reflexivity].
    destruct (signer (ethersAdapter this) t _); reflexivity.
Qed.

Lemma toNumber_integral (v r : value) :
  toNumber v = Ok r -> exists n, r = VNum n /\ v = VNum n /\ (Z.abs n < 2 ^ 53)%Z.
Proof.
  unfold toNumber. destruct v; try discriminate.
  destruct (Z.abs n <? 2 ^ 53)%Z eqn:E; [|discriminate].
  intros H. injection H as <-. exists n. apply Z.ltb_lt in E. auto.
Qed.

(** C8, as the specification words it, fails: with options whose [from]
    is not the signer's account, [send] rejects with the address
    mismatch error, but [estimateGas] never asks for the account: it
    forwards the options, [from] included, and resolves. *)
Lemma estimateGas_skips_from_check :
  let options := VObj [("from", VStr Ref.stranger)] in
  send Ref.txs Ref.handle "balanceOf" [] options []
    = (Throw (addressMismatchError (VStr Ref.account) (VStr Ref.stranger)),
       [SignerGetAddress])
  /\ estimateGas Ref.txs Ref.handle "balanceOf" [] options []
     = (Ok (VNum 21000),
        [ContractEstimate (address Ref.handle) "balanceOf"
           [VObj [("gasLimit", VUndefined); ("from", VStr Ref.stranger)]]]).
Proof. split; vm_compute; reflexivity. Qed.

(** C8, amended.  [estimateGas] never submits a transaction and never
    asks the signer for its account: it makes at most one request, the
    estimate itself.  Without options the estimate is requested for the
    parameters alone; with options the gas is normalized and the options
    are forwarded, with no check of [from].  What it resolves with is
    the integer the library estimated. *)
Theorem estimateGas_spec :
  forall (txs : Transactions) (this : EthersContractAdapter)
         (methodName : string) (params : list value) (options : value) (t : trace),
    submissions (snd (estimateGas txs this methodName params options t))
      = submissions t
    /\ (snd (estimateGas txs this methodName params options t) = t
        \/ exists args,
            snd (estimateGas txs this methodName params options t)
            = t ++ [ContractEstimate (address this) methodName args])
    /\ (forall f,
          falsy options = true ->
          findFunction methodName (contract_interface (contract this)) = Some f ->
          let request := ContractEstimate (address this) methodName params in
          estimateGas txs this methodName params options t
          = (rbind (signer (ethersAdapter this) t request) toNumber, t ++ [request]))
    /\ (forall f normalized gas,
          falsy options = false ->
          findFunction methodName (contract_interface (contract this)) = Some f ->
          normalizeGasLimit txs options = Ok normalized ->
          get normalized "gas" = Ok gas ->
          let request :=
            ContractEstimate (address this) methodName
              (params ++ [estimateOverrides normalized gas]) in
          estimateGas txs this methodName params options t
          = (rbind (signer (ethersAdapter this) t request) toNumber, t ++ [request]))
    /\ (forall r t',
          estimateGas txs this methodName params options t = (Ok r, t') ->
          exists n, r = VNum n /\ (Z.abs n < 2 ^ 53)%Z).
Proof.
  intros txs this methodName params options t.
  rewrite estimateGas_run. cbv zeta.
  split; [|split; [|split; [|split]]].
  - destruct (falsy options);
      [|destruct (normalizeGasLimit txs options) as [normalized|e]; [|reflexivity];
        destruct (get normalized "gas") as [gas|e]; [|reflexivity]];
      (destruct (findFunction methodName (contract_interface (contract this)));
       [|reflexivity]);
      simpl; rewrite submissions_app; simpl; apply app_nil_r.
  - destruct (falsy options);
      [|destruct (normalizeGasLimit txs options) as [normalized|e];
        [|left; reflexivity];
        destruct (get normalized "gas") as [gas|e]; [|left; reflexivity]];
      (destruct (findFunction methodName (contract_interface (contract this)));
       [|left; reflexivity]);
      right; eexists; reflexivity.
  - intros f Hopt Hf. rewrite Hopt, Hf. reflexivity.
  - intros f normalized gas Hopt Hf Hnorm Hgas.
    rewrite Hopt, Hnorm, Hgas, Hf. reflexivity.
  - intros r t' H.
    assert (Hnum : forall x u, (rbind x toNumber, u) = (Ok r, t') ->
                               exists n, r = VNum n /\ (Z.abs n < 2 ^ 53)%Z).
    { intros x u Hx. injection Hx as Hx _. destruct x as [v|e]; [|discriminate].
      simpl in Hx. destruct (toNumber_integral _ _ Hx) as [n [-> [_ Hn]]].
      exists n. auto. }
    destruct (falsy options);
      [|destruct (normalizeGasLimit txs options) as [normalized|e];
        [|discriminate];
        destruct (get normalized "gas") as [gas|e]; [|discriminate]];
      (destruct (findFunction methodName (contract_interface (contract this)));
       [|discriminate]);
      eapply Hnum, H.
Qed.

Lemma estimateGas_spec_witness :
  estimateGas Ref.txs Ref.handle "balanceOf" [VStr Ref.account] VUndefined []
    = (Ok (VNum 21000),
       [ContractEstimate (address Ref.handle) "balanceOf" [VStr Ref.account]])
  /\ estimateGas Ref.txs Ref.handle "balanceOf" [VStr Ref.account]
       (VObj [("gasLimit", VNum 50000); ("from", VStr Ref.stranger)]) []
     = (Ok (VNum 21000),
        [ContractEstimate (address Ref.handle) "balanceOf"
           [VStr Ref.account;
            VObj [("gasLimit", VNum 50000); ("from", VStr Ref.stranger)]]]).
Proof.
  pose proof (estimateGas_spec Ref.txs Ref.handle "balanceOf" [VStr Ref.account]
                VUndefined []) as [_ [_ [Homitted _]]].
  pose proof (estimateGas_spec Ref.txs Ref.handle "balanceOf" [VStr Ref.account]
                (VObj [("gasLimit", VNum 50000); ("from", VStr Ref.stranger)]) [])
    as [_ [_ [_ [Hsupplied _]]]].
  split.
  - exact (Homitted Ref.balanceOf eq_refl eq_refl).
  - exact (Hsupplied Ref.balanceOf
             (VObj [("from", VStr Ref.stranger); ("gas", VNum 50000)]) (VNum 50000)
             eq_refl eq_refl eq_refl eq_refl).
Defined.

(** ** What is handed to the library: [gas] becomes [gasLimit] *)

Lemma NoDup_omit (ks : list string) (ps : props) :
  NoDup (map fst ps) -> NoDup (map fst (omit ks ps)).
Proof.
  induction ps as [|[k v] ps IH]; simpl; intros Hnd; [constructor|].
  inversion Hnd as [|? ? Hnotin Hnd']; subst.
  destruct (existsb (String.eqb k) ks); simpl; [apply IH, Hnd'|].
  constructor; [|apply IH, Hnd'].
  intros Hin. apply Hnotin. apply in_map_iff in Hin.
  destruct Hin as [[k' v'] [Hk Hin]]. simpl in Hk. subst k'.
  apply filter_In in Hin. destruct Hin as [Hin _].
  apply in_map_iff. exists (k, v'). split; [reflexivity | exact Hin].
Qed.

(** [{ gasLimit: gas, ...rest }] where [rest] is the bag without the keys
    [ks]: a key of [rest] keeps its value, and [gasLimit] is [gas] unless
    [rest] has a [gasLimit] of its own. *)
Lemma lookup_overrides (ks : list string) (ps : props) (gas : value) (k : string) :
  NoDup (map fst ps) ->
  lookup k (spread [("gasLimit", gas)] (VObj (omit ks ps)))
  = if existsb (String.eqb k) ks
    then (if String.eqb k "gasLimit" then Some gas else None)
    else match lookup k ps with
         | Some v => Some v
         | None => if String.eqb k "gasLimit" then Some gas else None
         end.
Proof.
  intros Hnd.
  rewrite lookup_spread by (simpl; apply NoDup_omit, Hnd). simpl.
  destruct (existsb (String.eqb k) ks) eqn:E.
  - rewrite lookup_omit_in; [reflexivity|].
    apply existsb_exists in E. destruct E as [x [Hx Hk]].
    apply String.eqb_eq in Hk. subst x. exact Hx.
  - rewrite lookup_omit_notin; [reflexivity|].
    intros Hin.
    assert (existsb (String.eqb k) ks = true) as Hx; [|congruence].
    apply existsb_exists. exists k. split; [exact Hin | apply String.eqb_refl].
Qed.

(** C10.  With [normalized] the bag [normalizeGasLimit] returns and
    [gas] its [gas] property: [ethSendTransaction] hands the signer, and
    [send] and [estimateGas] hand the contract proxy as last argument,
    an object in which [gasLimit] holds [gas] (the bag having no
    [gasLimit] of its own), the key [gas] is gone, the key [from] is gone
    ([ethSendTransaction], [send]) or kept ([estimateGas]), and every
    other key of the bag has the value the bag gives it; the object has
    no further keys. *)
Theorem dispatch_renames_gas :
  forall (txs : Transactions) (adapter : EthersAdapter)
         (this : EthersContractAdapter)
         (normalized from gas : value) (t : trace),
    get normalized "from" = Ok from ->
    get normalized "gas" = Ok gas ->
    NoDup (map fst (ownEnumerable normalized)) ->
    let bag := ownEnumerable normalized in
    let sent := ownEnumerable (sendOverrides normalized gas) in
    let estimated := ownEnumerable (estimateOverrides normalized gas) in
    (forall tx,
        normalizeGasLimit txs tx = Ok normalized ->
        verifiedSender adapter t from ->
        snd (ethSendTransaction txs adapter tx t)
        = t ++ [SignerGetAddress;
                SignerSendTransaction (sendOverrides normalized gas)])
    /\ (forall methodName params options f,
          notNullish options = true ->
          normalizeGasLimit txs options = Ok normalized ->
          verifiedSender (ethersAdapter this) t from ->
          findFunction methodName (contract_interface (contract this)) = Some f ->
          snd (send txs this methodName params options t)
          = t ++ [SignerGetAddress;
                  ContractFunction (address this) methodName
                    (params ++ [sendOverrides normalized gas])])
    /\ (forall methodName params options f,
          falsy options = false ->
          normalizeGasLimit txs options = Ok normalized ->
          findFunction methodName (contract_interface (contract this)) = Some f ->
          snd (estimateGas txs this methodName params options t)
          = t ++ [ContractEstimate (address this) methodName
                    (params ++ [estimateOverrides normalized gas])])
    /\ (lookup "gasLimit" bag = None ->
        lookup "gasLimit" sent = Some gas /\ lookup "gasLimit" estimated = Some gas)
    /\ (lookup "gas" sent = None /\ lookup "gas" estimated = None)
    /\ (lookup "from" sent = None /\ lookup "from" estimated = lookup "from" bag)
    /\ (forall k,
          k <> "gas" -> k <> "from" -> k <> "gasLimit" ->
          lookup k sent = lookup k bag /\ lookup k estimated = lookup k bag).
Proof.
  intros txs adapter this normalized from gas t Hfrom Hgas Hnd bag sent estimated.
  assert (Hsent : forall k,
             lookup k sent
             = if existsb (String.eqb k) ["from"; "gas"]
               then (if String.eqb k "gasLimit" then Some gas else None)
               else match lookup k bag with
                    | Some v => Some v
                    | None => if String.eqb k "gasLimit" then Some gas else None
                    end).
  { intros k. apply lookup_overrides, Hnd. }
  assert (Hest : forall k,
             lookup k estimated
             = if existsb (String.eqb k) ["gas"]
               then (if String.eqb k "gasLimit" then Some gas else None)
               else match lookup k bag with
                    | Some v => Some v
                    | None => if String.eqb k "gasLimit" then Some gas else None
                    end).
  { intros k. apply lookup_overrides, Hnd. }
  split; [|split; [|split; [|split; [|split; [|split]]]]].
  - intros tx Hnorm Hver. apply checkFromAddress_ok in Hver.
    rewrite ethSendTransaction_run, Hnorm, Hfrom, Hgas, Hver. cbv zeta.
    rewrite <- app_assoc. simpl.
    destruct (signer adapter _ _) as [response|e]; [|reflexivity].
    destruct (get response "hash"); reflexivity.
  - intros methodName params options f Hopt Hnorm Hver Hf.
    apply checkFromAddress_ok in Hver.
    rewrite (send_run _ _ _ _ _ _ Hopt), Hnorm, Hfrom, Hgas, Hver, Hf. cbv zeta.
    rewrite <- app_assoc. simpl.
    destruct (signer (ethersAdapter this) _ _) as [response|e]; [|reflexivity].
    destruct (get response "hash"); reflexivity.
  - intros methodName params options f Hopt Hnorm Hf.
    rewrite estimateGas_run, Hopt, Hnorm, Hgas, Hf. reflexivity.
  - intros Hnone. rewrite Hsent, Hest, Hnone. split; reflexivity.
  - rewrite Hsent, Hest. split; reflexivity.
  - rewrite Hsent, Hest. simpl. split; [reflexivity|].
    destruct (lookup "from" bag); reflexivity.
  - intros k Hg Hf Hl. rewrite Hsent, Hest. simpl.
    apply String.eqb_neq in Hg, Hf, Hl. rewrite Hg, Hf, Hl. simpl.
    destruct (lookup k bag); split; reflexivity.
Qed.

Lemma dispatch_renames_gas_witness :
  let tx := VObj [("to", VStr Ref.stranger); ("gasLimit", VNum 50000);
                  ("from", VStr "0x4d1a2e2bb4f88f0250f26ffff098b0b30b26bf38");
                  ("value", VNum 1)] in
  snd (ethSendTransaction Ref.txs Ref.adapter tx [])
  = [SignerGetAddress;
     SignerSendTransaction
       (VObj [("gasLimit", VNum 50000); ("to", VStr Ref.stranger);
              ("value", VNum 1)])].
Proof.
  intros tx.
  apply (proj1 (dispatch_renames_gas Ref.txs Ref.adapter Ref.handle
           (VObj [("to", VStr Ref.stranger);
                  ("from", VStr "0x4d1a2e2bb4f88f0250f26ffff098b0b30b26bf38");
                  ("value", VNum 1); ("gas", VNum 50000)])
           (VStr "0x4d1a2e2bb4f88f0250f26ffff098b0b30b26bf38") (VNum 50000) []
           eq_refl eq_refl
           ltac:(simpl; repeat constructor; simpl; intuition discriminate))
           tx eq_refl).
  exists Ref.account. split; [reflexivity | vm_compute; reflexivity].
Defined.

(** Where the bag does carry a [gasLimit] of its own, the spread writes
    it over the renamed [gas]. *)
Lemma overrides_keep_own_gasLimit (normalized gas v : value) :
  NoDup (map fst (ownEnumerable normalized)) ->
  lookup "gasLimit" (ownEnumerable normalized) = Some v ->
  lookup "gasLimit" (ownEnumerable (sendOverrides normalized gas)) = Some v
  /\ lookup "gasLimit" (ownEnumerable (estimateOverrides normalized gas)) = Some v.
Proof.
  intros Hnd Hv. unfold sendOverrides, estimateOverrides. cbn [ownEnumerable].
  rewrite !lookup_overrides by exact Hnd. simpl. rewrite Hv. split; reflexivity.
Qed.

(** ** [calcCreate2Address] *)

Module HexFacts.

Lemma slice_skipS (n : nat) (s : string) : slice n s = Hex.skipS n s.
Proof.
  unfold slice. revert s. induction n as [|n IH]; intros s.
  - rewrite Nat.sub_0_r. apply substring_all.
  - destruct s as [|c r]; [reflexivity|]. simpl. apply IH.
Qed.

Lemma skipS_length (n : nat) (s : string) :
  String.length (Hex.skipS n s) = String.length s - n.
Proof.
  revert s. induction n as [|n IH]; intros s; simpl; [lia|].
  destruct s as [|c r]; simpl; [reflexivity | apply IH].
Qed.

Lemma skipS_isDigits (n : nat) (s : string) :
  Hex.isDigits s = true -> Hex.isDigits (Hex.skipS n s) = true.
Proof.
  revert s. induction n as [|n IH]; intros s H; simpl; [exact H|].
  destruct s as [|c r]; [reflexivity|]. simpl in H.
  apply andb_true_iff in H. apply IH, H.
Qed.

(** An even number of hex digits stands for half as many bytes. *)
Lemma bytesOfDigits_defined (n : nat) (ds : string) :
  String.length ds = 2 * n ->
  Hex.isDigits ds = true ->
  exists bs, Hex.bytesOfDigits ds = Some bs /\ List.length bs = n.
Proof.
  revert ds. induction n as [|n IH]; intros ds Hlen Hds.
  - destruct ds; [|discriminate]. exists []. split; reflexivity.
  - destruct ds as [|hi [|lo r]]; simpl in Hlen; try lia.
    simpl in Hds. apply andb_true_iff in Hds. destruct Hds as [Hhi Hds].
    apply andb_true_iff in Hds. destruct Hds as [Hlo Hr].
    destruct (IH r ltac:(lia) Hr) as [bs [Hbs Hn]].
    unfold Hex.isDigit in Hhi, Hlo. cbn [Hex.bytesOfDigits].
    destruct (Hex.digitValue hi) as [h|]; [|discriminate].
    destruct (Hex.digitValue lo) as [l|]; [|discriminate].
    rewrite Hbs. eexists. split; [reflexivity|]. simpl. rewrite Hn. reflexivity.
Qed.

(** Dropping [2 * k] digits drops [k] bytes. *)
Lemma bytesOfDigits_skip (k : nat) (ds : string) (bs : list Z) :
  Hex.bytesOfDigits ds = Some bs ->
  Hex.bytesOfDigits (Hex.skipS (2 * k) ds) = Some (skipn k bs).
Proof.
  revert ds bs. induction k as [|k IH]; intros ds bs H; [exact H|].
  replace (2 * S k) with (S (S (2 * k))) by lia.
  destruct ds as [|hi [|lo r]].
  - injection H as <-. reflexivity.
  - discriminate.
  - cbn [Hex.bytesOfDigits] in H.
    destruct (Hex.digitValue hi) as [h|]; [|discriminate].
    destruct (Hex.digitValue lo) as [l|]; [|discriminate].
    destruct (Hex.bytesOfDigits r) as [bs'|] eqn:Hr; [|discriminate].
    injection H as <-. cbn [Hex.skipS skipn]. apply IH, Hr.
Qed.

(** The shape of a string of [n] bytes. *)
Lemma isData_split (n : nat) (s : string) :
  Hex.isData n s = true ->
  exists ds, s = ("0x" ++ ds)%string
             /\ String.length ds = 2 * n /\ Hex.isDigits ds = true.
Proof.
  unfold Hex.isData. destruct s as [|c0 [|c1 ds]];
    [discriminate | destruct c0 as [[] [] [] [] [] [] [] []]; discriminate |].
  destruct c0 as [[] [] [] [] [] [] [] []]; cbv iota; try discriminate.
  destruct c1 as [[] [] [] [] [] [] [] []]; cbv iota; try discriminate.
  intros H. apply andb_true_iff in H. destruct H as [Hlen Hds].
  apply Nat.eqb_eq in Hlen. exists ds. auto.
Qed.

(** [digest.slice(-40)] of a 32-byte hex string: the 40 digits of its
    last 20 bytes. *)
Lemma sliceLast_digest (digest : string) :
  Hex.isData 32 digest = true ->
  exists hash,
    Hex.bytes digest = Some hash
    /\ List.length hash = 32
    /\ Hex.isData 20 ("0x" ++ sliceLast 40 digest) = true
    /\ Hex.bytes ("0x" ++ sliceLast 40 digest) = Some (Hex.lastn 20 hash).
Proof.
  intros H. destruct (isData_split _ _ H) as [ds [-> [Hlen Hds]]].
  destruct (bytesOfDigits_defined 32 ds Hlen Hds) as [hash [Hhash Hn]].
  exists hash. split; [exact Hhash|]. split; [exact Hn|].
  assert (Htail : sliceLast 40 ("0x" ++ ds) = Hex.skipS (2 * 12) ds).
  { unfold sliceLast. rewrite slice_skipS. simpl String.length. rewrite Hlen.
    reflexivity. }
  rewrite Htail. split.
  - cbn [Hex.isData append]. rewrite skipS_length, Hlen, skipS_isDigits by exact Hds.
    reflexivity.
  - cbn [Hex.bytes append]. unfold Hex.lastn. rewrite Hn.
    apply bytesOfDigits_skip, Hhash.
Qed.

End HexFacts.

(** C1.  Let [codeHash] be the keccak256 of the init code and [digest]
    the 32-byte keccak256 of [0xff ++ deployer ++ salt ++ codeHash], which
    is what the library's packed hash of the four values computes.  Then
    [digest.slice(-40)] is the hex of the last 20 bytes of [digest], and
    [calcCreate2Address] returns what [getAddress], the checksum
    normalization, makes of it.  The result depends on the library and
    the three arguments only: adapters over the same library, whatever
    their signer, compute the same address. *)
Theorem calcCreate2Address_spec :
  forall (this : EthersAdapter) (deployer salt initCode codeHash digest : string),
    keccak256 this initCode = Ok codeHash ->
    utils_solidityKeccak256 (ethers this)
      ["bytes"; "address"; "bytes32"; "bytes32"]
      ["0xff"; deployer; salt; codeHash]
    = utils_keccak256 (ethers this) (Hex.concat ["0xff"; deployer; salt; codeHash]) ->
    utils_keccak256 (ethers this) (Hex.concat ["0xff"; deployer; salt; codeHash])
    = Ok digest ->
    Hex.isData 32 digest = true ->
    (exists hash tail,
        Hex.bytes digest = Some hash
        /\ List.length hash = 32
        /\ Hex.bytes ("0x" ++ tail) = Some (Hex.lastn 20 hash)
        /\ calcCreate2Address this deployer salt initCode
           = utils_getAddress (ethers this) (VStr tail))
    /\ (forall other : EthersAdapter,
          ethers other = ethers this ->
          calcCreate2Address other deployer salt initCode
          = calcCreate2Address this deployer salt initCode).
Proof.
  intros this deployer salt initCode codeHash digest Hcode Hpack Hdigest Hwf.
  split.
  - destruct (HexFacts.sliceLast_digest digest Hwf) as [hash [Hhash [Hlen [_ Htail]]]].
    exists hash, (sliceLast 40 digest).
    split; [exact Hhash|]. split; [exact Hlen|]. split; [exact Htail|].
    unfold calcCreate2Address. rewrite Hcode. simpl. rewrite Hpack, Hdigest.
    reflexivity.
  - intros other Heq. unfold calcCreate2Address, keccak256. rewrite Heq.
    reflexivity.
Qed.

Lemma calcCreate2Address_spec_witness :
  let deployer := "0x00000000000000000000000000000000deadbeef" in
  let salt := "0x00000000000000000000000000000000000000000000000000000000cafebabe" in
  let digest := "0xe9d4e29feca240e42ed1d3d360f3f640a8508fc6a86d45df051962668e1e8ac7" in
  (exists hash tail,
      Hex.bytes digest = Some hash
      /\ List.length hash = 32
      /\ Hex.bytes ("0x" ++ tail) = Some (Hex.lastn 20 hash)
      /\ calcCreate2Address Ref.adapter deployer salt "0xdeadbeef"
         = Ref.getAddress (VStr tail))
  /\ calcCreate2Address Ref.adapter deployer salt "0xdeadbeef"
     = Ok "0x60f3f640a8508fC6a86d45DF051962668E1e8AC7".
Proof.
  intros deployer salt digest. split.
  - exact (proj1 (calcCreate2Address_spec Ref.adapter deployer salt "0xdeadbeef"
             "0xd4fd4e189132273036449fc9e11198c739161b4c0116a9a2dccdfa1c492006f1"
             digest
             ltac:(vm_compute; reflexivity) ltac:(vm_compute; reflexivity)
             ltac:(vm_compute; reflexivity) ltac:(vm_compute; reflexivity))).
  - vm_compute. reflexivity.
Defined.

(** ** The reference library meets the assumptions on every input

    For a 20-byte deployer, a 32-byte salt and any init code in hex, the
    reference library satisfies what the statement on
    [calcCreate2Address] assumes: digests have 32 bytes, and the packed
    hash is the hash of the concatenation. *)

Module KeccakFacts.

Lemma iota_length (rc : Z) (A : list Z) : List.length (Keccak.iota rc A) = List.length A.
Proof. destruct A; reflexivity. Qed.

Lemma round_length (A : list Z) (rc : Z) : List.length (Keccak.round A rc) = 25.
Proof.
  unfold Keccak.round. rewrite iota_length. unfold Keccak.chi.
  rewrite length_map, length_seq. reflexivity.
Qed.

Lemma permute_length (A : list Z) :
  List.length A = 25 -> List.length (Keccak.permute A) = 25.
Proof.
  unfold Keccak.permute. generalize Keccak.roundConstants as rcs.
  intros rcs. revert A. induction rcs as [|rc rcs IH]; intros A HA; simpl.
  - exact HA.
  - apply IH, round_length.
Qed.

Lemma absorb_length (fuel : nat) (A bs : list Z) :
  List.length A = 25 -> List.length (Keccak.absorb fuel A bs) = 25.
Proof.
  revert A bs. induction fuel as [|fuel IH]; intros A bs HA; simpl; [exact HA|].
  destruct bs as [|b bs]; [exact HA|].
  apply IH. unfold Keccak.absorbBlock. apply permute_length.
  rewrite length_map, length_seq. reflexivity.
Qed.

Lemma concat_lanes_length (A : list Z) :
  List.length (List.concat (map Keccak.bytesOfLane A)) = 8 * List.length A.
Proof.
  induction A as [|a A IH]; [reflexivity|].
  cbn [map List.concat]. rewrite length_app, IH. unfold Keccak.bytesOfLane.
  rewrite length_map, length_seq. simpl List.length. lia.
Qed.

Lemma concat_lanes_bytes (A : list Z) :
  Forall (fun b => 0 <= b < 256)%Z (List.concat (map Keccak.bytesOfLane A)).
Proof.
  induction A as [|a A IH]; [constructor|].
  cbn [map List.concat]. apply Forall_app. split; [|exact IH].
  unfold Keccak.bytesOfLane. apply Forall_forall. intros b Hb.
  apply in_map_iff in Hb. destruct Hb as [i [<- _]].
  change 255%Z with (Z.ones 8). rewrite Z.land_ones by lia.
  apply Z.mod_pos_bound. reflexivity.
Qed.

Lemma Forall_prefix {A} (P : A -> Prop) (n : nat) (l : list A) :
  Forall P l -> Forall P (firstn n l).
Proof.
  intros H. revert n. induction H as [|a l Ha _ IH]; intros [|n]; simpl;
    constructor; auto.
Qed.

Lemma keccak256_length (msg : list Z) : List.length (Keccak.keccak256 msg) = 32.
Proof.
  unfold Keccak.keccak256. rewrite length_firstn, concat_lanes_length, absorb_length.
  - reflexivity.
  - apply repeat_length.
Qed.

Lemma keccak256_bytes (msg : list Z) :
  Forall (fun b => 0 <= b < 256)%Z (Keccak.keccak256 msg).
Proof.
  unfold Keccak.keccak256. apply Forall_prefix, concat_lanes_bytes.
Qed.

End KeccakFacts.

Module RefHexFacts.

Lemma digitChar_isDigit (d : Z) :
  (0 <= d < 16)%Z -> Hex.isDigit (Hex.digitChar d) = true.
Proof.
  intros H.
  assert (d = 0 \/ d = 1 \/ d = 2 \/ d = 3 \/ d = 4 \/ d = 5 \/ d = 6 \/ d = 7
          \/ d = 8 \/ d = 9 \/ d = 10 \/ d = 11 \/ d = 12 \/ d = 13 \/ d = 14
          \/ d = 15)%Z as Hd by lia.
  repeat (destruct Hd as [-> | Hd]; [reflexivity|]). subst d. reflexivity.
Qed.

Lemma digitsOfBytes_length (bs : list Z) :
  String.length (Hex.digitsOfBytes bs) = 2 * List.length bs.
Proof. induction bs as [|b bs IH]; simpl; [reflexivity | rewrite IH; lia]. Qed.

Lemma digitsOfBytes_isDigits (bs : list Z) :
  Forall (fun b => 0 <= b < 256)%Z bs -> Hex.isDigits (Hex.digitsOfBytes bs) = true.
Proof.
  induction 1 as [|b bs Hb _ IH]; [reflexivity|].
  cbn [Hex.digitsOfBytes Hex.isDigits].
  rewrite !digitChar_isDigit, IH; [reflexivity | |].
  - apply Z.mod_pos_bound. reflexivity.
  - split; [apply Z.div_pos; lia | apply Z.div_lt_upper_bound; lia].
Qed.

(** Every digest of the reference [keccak256] is a 32-byte hex string. *)
Lemma keccak256_isData (data digest : string) :
  Ref.keccak256 data = Ok digest -> Hex.isData 32 digest = true.
Proof.
  unfold Ref.keccak256. destruct (Ref.arrayify data) as [bs|e]; [|discriminate].
  simpl. intros H. injection H as <-. unfold Hex.ofBytes. cbn [append Hex.isData].
  rewrite digitsOfBytes_length, KeccakFacts.keccak256_length,
    digitsOfBytes_isDigits by apply KeccakFacts.keccak256_bytes.
  reflexivity.
Qed.

Lemma even_double (n : nat) : Nat.even (2 * n) = true.
Proof. rewrite Nat.even_spec. exists n. reflexivity. Qed.

(** [arrayify] of a string of [n] bytes. *)
Lemma arrayify_isData (n : nat) (s : string) :
  Hex.isData n s = true ->
  exists bs, Ref.arrayify s = Ok bs
             /\ Hex.bytesOfDigits (Hex.digits s) = Some bs
             /\ String.length (Hex.digits s) = 2 * n
             /\ List.length bs = n.
Proof.
  intros H. destruct (HexFacts.isData_split _ _ H) as [ds [-> [Hlen Hds]]].
  destruct (HexFacts.bytesOfDigits_defined n ds Hlen Hds) as [bs [Hbs Hn]].
  exists bs. cbn [append Ref.arrayify Hex.digits].
  rewrite Hlen, even_double, Hbs. auto.
Qed.

Lemma bytesOfDigits_app (a b : string) (x y : list Z) :
  Hex.bytesOfDigits a = Some x ->
  Hex.bytesOfDigits b = Some y ->
  Hex.bytesOfDigits (a ++ b) = Some (x ++ y).
Proof.
  revert a. induction x as [|h x IH]; intros a Ha Hb.
  - destruct a as [|hi [|lo r]]; [exact Hb | discriminate |].
    cbn [Hex.bytesOfDigits] in Ha.
    destruct (Hex.digitValue hi); [|discriminate].
    destruct (Hex.digitValue lo); [|discriminate].
    destruct (Hex.bytesOfDigits r); discriminate.
  - destruct a as [|hi [|lo r]]; [discriminate | discriminate |].
    cbn [Hex.bytesOfDigits] in Ha. cbn [append Hex.bytesOfDigits].
    destruct (Hex.digitValue hi); [|discriminate].
    destruct (Hex.digitValue lo); [|discriminate].
    destruct (Hex.bytesOfDigits r) as [bs|] eqn:Hr; [|discriminate].
    injection Ha as <- <-. rewrite (IH r Hr Hb). reflexivity.
Qed.

Lemma append_length (a b : string) :
  String.length (a ++ b) = String.length a + String.length b.
Proof. induction a as [|c a IH]; simpl; [reflexivity | rewrite IH; reflexivity]. Qed.

(** The packed hash of the four values is the hash of their
    concatenation. *)
Lemma solidityKeccak256_packed (deployer salt codeHash : string) :
  Hex.isData 20 deployer = true ->
  Hex.isData 32 salt = true ->
  Hex.isData 32 codeHash = true ->
  exists digest,
    Ref.solidityKeccak256 ["bytes"; "address"; "bytes32"; "bytes32"]
                          ["0xff"; deployer; salt; codeHash] = Ok digest
    /\ Ref.keccak256 (Hex.concat ["0xff"; deployer; salt; codeHash]) = Ok digest.
Proof.
  intros Hd Hs Hc.
  destruct (arrayify_isData _ _ Hd) as [bd [Ad [Dd [Ld Nd]]]].
  destruct (arrayify_isData _ _ Hs) as [bs [As [Ds [Ls Ns]]]].
  destruct (arrayify_isData _ _ Hc) as [bc [Ac [Dc [Lc Nc]]]].
  unfold Ref.solidityKeccak256, Ref.keccak256.
  assert (Hpack : Ref.pack ["bytes"; "address"; "bytes32"; "bytes32"]
                           ["0xff"; deployer; salt; codeHash]
                  = Ok ([255%Z] ++ bd ++ bs ++ bc)).
  { cbn [Ref.pack]. unfold Ref.pack1.
    change (String.eqb "bytes" "address") with false.
    change (String.eqb "bytes" "bytes") with true.
    change (String.eqb "address" "address") with true.
    change (String.eqb "bytes32" "address") with false.
    change (String.eqb "bytes32" "bytes") with false.
    change (Ref.bytesSize "bytes32") with (Some 32).
    cbv iota. rewrite Ad, As, Ac. cbn [rbind].
    rewrite Ns, Nc. cbn [Nat.eqb rbind]. rewrite app_nil_r.
    change (Ref.arrayify "0xff") with (@Ok (list Z) [255%Z]). reflexivity. }
  assert (Hconcat : Ref.arrayify (Hex.concat ["0xff"; deployer; salt; codeHash])
                    = Ok ([255%Z] ++ bd ++ bs ++ bc)).
  { unfold Hex.concat. cbn [map String.concat append Ref.arrayify Hex.digits].
    set (ds := (Hex.digits deployer ++ Hex.digits salt ++ Hex.digits codeHash)%string).
    assert (Hlen : String.length ds = 2 * 84).
    { unfold ds. rewrite !append_length, Ld, Ls, Lc. reflexivity. }
    assert (Hds : Hex.bytesOfDigits ds = Some (bd ++ bs ++ bc)).
    { unfold ds. apply bytesOfDigits_app; [exact Dd|].
      apply bytesOfDigits_app; [exact Ds | exact Dc]. }
    change (String.length (String "f" (String "f" ds))) with (S (S (String.length ds))).
    rewrite Hlen. change (Nat.even (S (S (2 * 84)))) with true. cbv iota.
    change (Hex.bytesOfDigits (String "f" (String "f" ds)))
      with (match Hex.bytesOfDigits ds with
            | Some r => Some (255%Z :: r)
            | None => None
            end).
    rewrite Hds. reflexivity. }
  rewrite Hpack, Hconcat. eexists. split; reflexivity.
Qed.

End RefHexFacts.

(** With the reference library, [calcCreate2Address] is the checksum
    form of the last 20 bytes of
    [keccak256(0xff ++ deployer ++ salt ++ keccak256(initCode))], for
    every 20-byte deployer, 32-byte salt and init code in hex. *)
Lemma calcCreate2Address_reference (deployer salt initCode : string) (code : list Z) :
  Hex.isData 20 deployer = true ->
  Hex.isData 32 salt = true ->
  Ref.arrayify initCode = Ok code ->
  exists codeHash digest hash tail,
    Ref.keccak256 initCode = Ok codeHash
    /\ Ref.keccak256 (Hex.concat ["0xff"; deployer; salt; codeHash]) = Ok digest
    /\ Hex.bytes digest = Some hash
    /\ List.length hash = 32
    /\ Hex.bytes ("0x" ++ tail) = Some (Hex.lastn 20 hash)
    /\ calcCreate2Address Ref.adapter deployer salt initCode
       = Ref.getAddress (VStr tail).
Proof.
  intros Hd Hs Hcode.
  assert (Hhash : exists codeHash, Ref.keccak256 initCode = Ok codeHash).
  { unfold Ref.keccak256. rewrite Hcode. eexists. reflexivity. }
  destruct Hhash as [codeHash HcodeHash].
  pose proof (RefHexFacts.keccak256_isData _ _ HcodeHash) as Hc.
  destruct (RefHexFacts.solidityKeccak256_packed _ _ _ Hd Hs Hc)
    as [digest [Hpack Hdigest]].
  pose proof (RefHexFacts.keccak256_isData _ _ Hdigest) as Hwf.
  destruct (HexFacts.sliceLast_digest digest Hwf) as [hash [Hhash [Hlen [_ Htail]]]].
  exists codeHash, digest, hash, (sliceLast 40 digest).
  split; [exact HcodeHash|]. split; [exact Hdigest|]. split; [exact Hhash|].
  split; [exact Hlen|]. split; [exact Htail|].
  unfold calcCreate2Address, keccak256. cbn [ethers Ref.adapter Ref.adapterWith
    Ref.utils utils_keccak256 utils_solidityKeccak256 utils_getAddress].
  rewrite HcodeHash. cbn [rbind]. rewrite Hpack. reflexivity.
Qed.

(** * Further properties of the two classes *)

(** ** Sending without options, and what a rejection does not tell *)

(** X1.  [send] without options (undefined or null) neither normalizes
    anything nor asks the signer for its account: for a method of the
    Abi its one request is the contract function on the parameters
    alone, and it resolves with the response and the response's
    [hash]. *)
Theorem send_without_options :
  forall (txs : Transactions) (this : EthersContractAdapter)
         (methodName : string) (params : list value) (options : value)
         (t : trace) (f : FunctionDescription),
    notNullish options = false ->
    findFunction methodName (contract_interface (contract this)) = Some f ->
    let request := ContractFunction (address this) methodName params in
    send txs this methodName params options t
    = (let* transactionResponse := signer (ethersAdapter this) t request in
       let* hash := get transactionResponse "hash" in
       Ok (VObj [("transactionResponse", transactionResponse); ("hash", hash)]),
       t ++ [request]).
Proof.
  intros txs this methodName params options t f Hopt Hf request.
  unfold send, contractFunction, perform, bind, lift, ret. rewrite Hopt, Hf.
  fold request.
  destruct (signer (ethersAdapter this) t request) as [response|e]; [|reflexivity].
  simpl. destruct (get response "hash"); reflexivity.
Qed.

Lemma send_without_options_witness :
  send Ref.txs Ref.handle "balanceOf" [VStr Ref.stranger] VUndefined []
  = (Ok (VObj [("transactionResponse", VObj [("hash", VStr "0x02")]);
               ("hash", VStr "0x02")]),
     [ContractFunction (address Ref.handle) "balanceOf" [VStr Ref.stranger]]).
Proof.
  exact (send_without_options Ref.txs Ref.handle "balanceOf" [VStr Ref.stranger]
           VUndefined [] Ref.balanceOf eq_refl eq_refl).
Defined.

(** X2.  Once the sender is verified, [ethSendTransaction] and [send]
    hand the transaction over, and what they settle with is decided
    afterwards: the response with its [hash] when there is one, the
    signer's own rejection when it rejects, and a TypeError when the
    signer resolves with undefined or null.  In each case the
    submission is already in the trace: a rejection does not mean that
    nothing was submitted. *)
Theorem submission_precedes_outcome :
  forall (txs : Transactions) (adapter : EthersAdapter)
         (this : EthersContractAdapter)
         (bag normalized from gas : value) (t : trace),
    normalizeGasLimit txs bag = Ok normalized ->
    get normalized "from" = Ok from ->
    get normalized "gas" = Ok gas ->
    let outcome (answer : result value) : result value :=
      let* transactionResponse := answer in
      let* hash := get transactionResponse "hash" in
      Ok (VObj [("transactionResponse", transactionResponse); ("hash", hash)]) in
    let t' := t ++ [SignerGetAddress] in
    (verifiedSender adapter t from ->
     let request := SignerSendTransaction (sendOverrides normalized gas) in
     ethSendTransaction txs adapter bag t
     = (outcome (signer adapter t' request), t' ++ [request]))
    /\ (forall methodName params f,
          notNullish bag = true ->
          verifiedSender (ethersAdapter this) t from ->
          findFunction methodName (contract_interface (contract this)) = Some f ->
          let request :=
            ContractFunction (address this) methodName
              (params ++ [sendOverrides normalized gas]) in
          send txs this methodName params bag t
          = (outcome (signer (ethersAdapter this) t' request), t' ++ [request]))
    /\ (forall transactionResponse,
          notNullish transactionResponse = false ->
          exists msg, outcome (Ok transactionResponse) = Throw (TypeError msg))
    /\ (forall e, outcome (Throw e) = Throw e).
Proof.
  intros txs adapter this bag normalized from gas t Hnorm Hfrom Hgas outcome t'.
  split; [|split; [|split]].
  - intros Hver request. apply checkFromAddress_ok in Hver.
    rewrite ethSendTransaction_run, Hnorm, Hfrom, Hgas, Hver. cbv zeta.
    fold t'. fold request. unfold outcome.
    destruct (signer adapter t' request) as [response|e]; [|reflexivity].
    simpl. destruct (get response "hash"); reflexivity.
  - intros methodName params f Hopt Hver Hf request.
    apply checkFromAddress_ok in Hver.
    rewrite (send_run _ _ _ _ _ _ Hopt), Hnorm, Hfrom, Hgas, Hver, Hf. cbv zeta.
    fold t'. fold request. unfold outcome.
    destruct (signer (ethersAdapter this) t' request) as [response|e]; [|reflexivity].
    simpl. destruct (get response "hash"); reflexivity.
  - intros response Hnull. unfold outcome. simpl.
    destruct response; try discriminate; eexists; reflexivity.
  - reflexivity.
Qed.

Lemma submission_precedes_outcome_witness :
  let mute : Signer :=
    fun _ r => match r with
               | SignerGetAddress => Ok (VStr Ref.account)
               | _ => Ok VUndefined
               end in
  let adapter := {| ethers := Ref.utils; signer := mute |} in
  let bag := VObj [("from", VStr Ref.account); ("to", VStr Ref.stranger)] in
  ethSendTransaction Ref.txs adapter bag []
  = (Throw (TypeError "Cannot read property 'hash' of undefined or null"),
     [SignerGetAddress;
      SignerSendTransaction
        (VObj [("gasLimit", VUndefined); ("to", VStr Ref.stranger)])]).
Proof.
  intros mute adapter bag.
  apply (proj1 (submission_precedes_outcome Ref.txs adapter Ref.handle bag bag
                  (VStr Ref.account) VUndefined [] eq_refl eq_refl eq_refl)).
  exists Ref.account. split; [reflexivity | vm_compute; reflexivity].
Defined.

(** X3.  A method name the Abi does not have: [encode] throws a
    TypeError and [call] rejects with it before the node is asked.  If
    the name is not one every object inherits either, there is nothing
    to call: [estimateGas] rejects without a request, and [send] rejects
    without submitting anything, whatever the options. *)
Theorem unknown_method_rejects :
  forall (txs : Transactions) (this : EthersContractAdapter)
         (methodName : string) (params : list value) (options : value) (t : trace),
    findFunction methodName (contract_interface (contract this)) = None ->
    (exists msg, encode this methodName params = Throw (TypeError msg))
    /\ (exists msg, call txs this methodName params options t
                    = (Throw (TypeError msg), t))
    /\ (inheritedName methodName = false ->
        (exists e, estimateGas txs this methodName params options t = (Throw e, t))
        /\ (exists e t', send txs this methodName params options t = (Throw e, t')
                         /\ submissions t' = submissions t)).
Proof.
  intros txs this methodName params options t Hnone.
  assert (Henc : encode this methodName params
                 = Throw (TypeError "Cannot read property of undefined")).
  { unfold encode, interfaceFunction. rewrite Hnone. reflexivity. }
  split; [eexists; exact Henc|]. split; [|intros _; split].
  - unfold call, bind, lift. rewrite Henc. eexists. reflexivity.
  - rewrite estimateGas_run, Hnone. cbv zeta.
    destruct (falsy options); [eexists; reflexivity|].
    destruct (normalizeGasLimit txs options) as [normalized|e];
      [|eexists; reflexivity].
    destruct (get normalized "gas"); eexists; reflexivity.
  - destruct (notNullish options) eqn:Hopt.
    + rewrite (send_run _ _ _ _ _ _ Hopt), Hnone.
      destruct (normalizeGasLimit txs options) as [normalized|e];
        [|exists e, t; split; reflexivity].
      destruct (get normalized "from") as [from|e];
        [|exists e, t; split; reflexivity].
      destruct (get normalized "gas") as [gas|e];
        [|exists e, t; split; reflexivity].
      destruct (fst (checkFromAddress (ethersAdapter this) from t)) as [[]|e];
        eexists; eexists; (split; [reflexivity | apply submissions_getAddress]).
    + unfold send, contractFunction, bind, throw. rewrite Hopt, Hnone.
      eexists; eexists; split; reflexivity.
Qed.

Lemma unknown_method_rejects_witness :
  (exists msg, call Ref.txs Ref.handle "transfer" [] VUndefined []
               = (Throw (TypeError msg), []))
  /\ (exists e t', send Ref.txs Ref.handle "transfer" [] VUndefined [] = (Throw e, t')
                   /\ submissions t' = submissions []).
Proof.
  destruct (unknown_method_rejects Ref.txs Ref.handle "transfer" [] VUndefined []
              eq_refl) as [_ [Hcall Hrest]].
  split; [exact Hcall | exact (proj2 (Hrest eq_refl))].
Defined.

(** ** Reading: [call] and [getCallRevertData] *)

(** X4.  What decides between the bare value and the sequence in [call]
    is the length of what was decoded: one decoded value is returned
    itself, anything else is returned as the sequence, the empty
    sequence of a method without outputs included. *)
Theorem call_unwraps_by_decoded_length :
  forall (txs : Transactions) (this : EthersContractAdapter)
         (methodName : string) (params : list value) (options : value)
         (t t' : trace) (f : FunctionDescription) (data : string)
         (resHex : value) (rets : list value),
    findFunction methodName (contract_interface (contract this)) = Some f ->
    fn_encode f params = Ok data ->
    ethCall txs (ethersAdapter this) (callTx this data options) (VStr "latest") t
      = (Ok resHex, t') ->
    fn_decode f resHex = Ok rets ->
    call txs this methodName params options t
    = (Ok (match rets with [v] => v | _ => VArr rets end), t').
Proof.
  intros txs this methodName params options t t' f data resHex rets
         Hf Henc Hcall Hdec.
  unfold call, encode, interfaceFunction, bind, lift, ret. rewrite Hf. simpl.
  rewrite Henc, Hcall, Hdec. destruct rets as [|v [|w rets]]; reflexivity.
Qed.

Lemma call_unwraps_by_decoded_length_witness :
  let ping : FunctionDescription :=
    {| fn_outputs := [];
       fn_encode := fun _ => Ok "0x5c36b186";
       fn_decode := fun _ => Ok [] |} in
  let handle :=
    {| contract := {| contract_address := VStr Ref.stranger;
                      contract_interface := [("ping", ping)] |};
       ethersAdapter := Ref.adapter |} in
  fst (call Ref.txs handle "ping" [] VUndefined []) = Ok (VArr []).
Proof.
  intros ping handle.
  rewrite (call_unwraps_by_decoded_length Ref.txs handle "ping" [] VUndefined []
             _ ping "0x5c36b186" (VStr "0x") [] eq_refl eq_refl eq_refl eq_refl).
  reflexivity.
Defined.

(** X5.  The transaction [call] builds, [{ ...options, to, data }]: [to]
    is the address of the handle and [data] the encoded call, whatever
    the options say about them; every other key of the options is taken
    over with its value, and nothing else is added. *)
Theorem callTx_overrides_to_and_data :
  forall (this : EthersContractAdapter) (data : string) (options : value),
    let tx := ownEnumerable (callTx this data options) in
    lookup "to" tx = Some (address this)
    /\ lookup "data" tx = Some (VStr data)
    /\ (NoDup (map fst (ownEnumerable options)) ->
        forall k, k <> "to" -> k <> "data" ->
                  lookup k tx = lookup k (ownEnumerable options)).
Proof.
  intros this data options tx. unfold tx, callTx. cbn [ownEnumerable].
  split; [|split].
  - rewrite lookup_setProp_other by discriminate. apply lookup_setProp_same.
  - apply lookup_setProp_same.
  - intros Hnd k Hto Hdata.
    rewrite !lookup_setProp_other by assumption.
    rewrite (lookup_spread k _ _ Hnd). destruct (lookup k (ownEnumerable options));
      reflexivity.
Qed.

Lemma callTx_overrides_to_and_data_witness :
  let options :=
    VObj [("from", VStr Ref.account); ("to", VStr Ref.stranger); ("gas", VNum 9)] in
  let tx := ownEnumerable (callTx Ref.handle "0x70a08231" options) in
  lookup "to" tx = Some (address Ref.handle)
  /\ lookup "from" tx = Some (VStr Ref.account).
Proof.
  intros options tx.
  destruct (callTx_overrides_to_and_data Ref.handle "0x70a08231" options)
    as [Hto [_ Hframe]].
  split; [exact Hto|].
  exact (Hframe ltac:(simpl; repeat constructor; simpl; intuition discriminate)
           "from" ltac:(discriminate) ltac:(discriminate)).
Defined.

(** X6.  [call] catches nothing: a failure to encode, a rejection of the
    [eth_call] and a failure to decode each reject [call] with that very
    error, and nothing is asked of the node after it. *)
Theorem call_propagates_errors :
  forall (txs : Transactions) (this : EthersContractAdapter)
         (methodName : string) (params : list value) (options : value)
         (t : trace) (f : FunctionDescription),
    findFunction methodName (contract_interface (contract this)) = Some f ->
    (forall e,
        fn_encode f params = Throw e ->
        call txs this methodName params options t = (Throw e, t))
    /\ (forall data e t',
          fn_encode f params = Ok data ->
          ethCall txs (ethersAdapter this) (callTx this data options)
            (VStr "latest") t = (Throw e, t') ->
          call txs this methodName params options t = (Throw e, t'))
    /\ (forall data resHex e t',
          fn_encode f params = Ok data ->
          ethCall txs (ethersAdapter this) (callTx this data options)
            (VStr "latest") t = (Ok resHex, t') ->
          fn_decode f resHex = Throw e ->
          call txs this methodName params options t = (Throw e, t')).
Proof.
  intros txs this methodName params options t f Hf.
  unfold call, encode, interfaceFunction, bind, lift, ret. rewrite Hf. simpl.
  split; [|split].
  - intros e Henc. rewrite Henc. reflexivity.
  - intros data e t' Henc Hcall. rewrite Henc, Hcall. reflexivity.
  - intros data resHex e t' Henc Hcall Hdec. rewrite Henc, Hcall, Hdec. reflexivity.
Qed.

Lemma call_propagates_errors_witness :
  let refused := Thrown (VObj [("message", VStr "connection refused")]) in
  let handle := {| contract := Ref.token;
                   ethersAdapter := Ref.adapterWith (Throw refused) |} in
  fst (call Ref.txs handle "balanceOf" [] VUndefined []) = Throw refused.
Proof.
  intros refused handle.
  rewrite (proj1 (proj2 (call_propagates_errors Ref.txs handle "balanceOf" []
                           VUndefined [] Ref.balanceOf eq_refl))
             "0x70a08231" refused _ eq_refl eq_refl).
  reflexivity.
Defined.

(** X7.  The [catch] clause of [getCallRevertData] asks nothing of the
    node: the requests of [getCallRevertData] are those of the one
    [ethCall] it tries, at most one [eth_call] at the block it was
    given; the call is never repeated. *)
Theorem getCallRevertData_single_request :
  forall (txs : Transactions) (this : EthersAdapter) (tx block : value) (t : trace),
    snd (getCallRevertData txs this tx block t) = snd (ethCall txs this tx block t)
    /\ (snd (getCallRevertData txs this tx block t) = t
        \/ exists formatted,
            formatCallTx txs tx = Ok formatted
            /\ snd (getCallRevertData txs this tx block t)
               = t ++ [ProviderSend "eth_call" [formatted; block]]).
Proof.
  intros txs this tx block t.
  unfold getCallRevertData, tryCatch, ethCall, providerSend, perform, bind, lift.
  destruct (formatCallTx txs tx) as [formatted|e].
  - split.
    + destruct (signer this t _); reflexivity.
    + right. exists formatted. split; [reflexivity|].
      destruct (signer this t _); reflexivity.
  - split; [reflexivity | left; reflexivity].
Qed.

Lemma ganacheRevertData_throws_TypeError (data : value) (e : exn) :
  ganacheRevertData data = Throw e -> exists msg, e = TypeError msg.
Proof.
  unfold ganacheRevertData.
  destruct (getOwnPropertyNames data) as [names|e0] eqn:Hnames; simpl.
  - destruct (get data _) as [entry|e1] eqn:Hentry; simpl.
    + apply get_throws_TypeError.
    + intros H. injection H as <-. eapply get_throws_TypeError, Hentry.
  - intros H. injection H as <-.
    destruct data; simpl in Hnames; try discriminate;
      injection Hnames as <-; eexists; reflexivity.
Qed.

(** X8.  [getCallRevertData] never rejects with the error of the failed
    call: whenever it rejects, it is with a TypeError raised while the
    [catch] clause reads the error. *)
Theorem getCallRevertData_rejects_with_TypeError :
  forall (txs : Transactions) (this : EthersAdapter) (tx block : value)
         (t t' : trace) (e : exn),
    getCallRevertData txs this tx block t = (Throw e, t') ->
    exists msg, e = TypeError msg.
Proof.
  intros txs this tx block t t' e. unfold getCallRevertData, tryCatch.
  destruct (ethCall txs this tx block t) as [[hex|e0] t0]; [discriminate|].
  unfold lift, revertDataOfError. intros H. injection H as H _.
  destruct (getExn e0 "data") as [data|e1] eqn:Hdata; simpl in H.
  - destruct data as [| | b | n | s | vs | ps];
      try (eapply ganacheRevertData_throws_TypeError, H).
    destruct (startsWith "Reverted 0x" s); [discriminate|].
    eapply ganacheRevertData_throws_TypeError, H.
  - injection H as <-. eapply getExn_throws_TypeError, Hdata.
Qed.

Lemma getCallRevertData_rejects_with_TypeError_witness :
  let refused := Thrown (VObj [("message", VStr "connection refused")]) in
  let tx := VObj [("to", VStr Ref.stranger)] in
  exists msg,
    fst (getCallRevertData Ref.txs (Ref.adapterWith (Throw refused)) tx
           (VStr "latest") [])
    = Throw (TypeError msg).
Proof.
  intros refused tx.
  destruct (getCallRevertData_rejects_with_TypeError
              Ref.txs (Ref.adapterWith (Throw refused)) tx (VStr "latest") []
              [ProviderSend "eth_call" [tx; VStr "latest"]]
              (TypeError "Cannot convert undefined or null to object") eq_refl)
    as [msg Hmsg].
  exists msg. rewrite <- Hmsg. reflexivity.
Defined.

(** X9.  When the error data is a mapping with no key that begins with
    [0x], the key looked up is [undefined] converted to a property
    name: a property spelled [undefined] is then taken for the entry,
    and its [return] field is the result. *)
Theorem getCallRevertData_undefined_key :
  forall (txs : Transactions) (this : EthersAdapter) (tx block : value)
         (t t' : trace) (e : exn) (ps : props) (entry : value),
    ethCall txs this tx block t = (Throw e, t') ->
    getExn e "data" = Ok (VObj ps) ->
    filter (startsWith "0x") (map fst ps) = [] ->
    lookup "undefined" ps = Some entry ->
    getCallRevertData txs this tx block t = (get entry "return", t').
Proof.
  intros txs this tx block t t' e ps entry Hcall Hdata Hnone Hentry.
  unfold getCallRevertData, tryCatch. rewrite Hcall.
  unfold lift, revertDataOfError. rewrite Hdata. unfold rbind at 1.
  unfold ganacheRevertData. simpl. rewrite Hnone. simpl. rewrite Hentry.
  reflexivity.
Qed.

Lemma getCallRevertData_undefined_key_witness :
  let e := Thrown (VObj [("data", VObj [("undefined", VObj [("return", VStr "0x01")])])]) in
  let tx := VObj [("to", VStr Ref.stranger)] in
  getCallRevertData Ref.txs (Ref.adapterWith (Throw e)) tx (VStr "latest") []
  = (Ok (VStr "0x01"), [ProviderSend "eth_call" [tx; VStr "latest"]]).
Proof.
  intros e tx.
  exact (getCallRevertData_undefined_key
           Ref.txs (Ref.adapterWith (Throw e)) tx (VStr "latest") [] _ e
           [("undefined", VObj [("return", VStr "0x01")])]
           (VObj [("return", VStr "0x01")]) eq_refl eq_refl eq_refl eq_refl).
Defined.

(** ** Failures before anything is submitted *)

(** X10.  When [normalizeGasLimit] rejects the bag, [ethSendTransaction],
    [send] with options and [estimateGas] with options reject with that
    error, and have asked nothing of the signer or the contract. *)
Theorem normalizer_failure_stops_everything :
  forall (txs : Transactions) (adapter : EthersAdapter)
         (this : EthersContractAdapter)
         (methodName : string) (params : list value) (bag : value)
         (t : trace) (e : exn),
    normalizeGasLimit txs bag = Throw e ->
    ethSendTransaction txs adapter bag t = (Throw e, t)
    /\ (notNullish bag = true ->
        send txs this methodName params bag t = (Throw e, t))
    /\ (falsy bag = false ->
        estimateGas txs this methodName params bag t = (Throw e, t)).
Proof.
  intros txs adapter this methodName params bag t e Hnorm.
  split; [|split].
  - rewrite ethSendTransaction_run, Hnorm. reflexivity.
  - intros Hopt. rewrite (send_run _ _ _ _ _ _ Hopt), Hnorm. reflexivity.
  - intros Hopt. rewrite estimateGas_run, Hopt, Hnorm. reflexivity.
Qed.

Lemma normalizer_failure_stops_everything_witness :
  let both := Error "specified both gas and gasLimit on options" in
  let strict : Transactions :=
    {| normalizeGasLimit :=
         fun options =>
           if hasKey "gas" (ownEnumerable options)
              && hasKey "gasLimit" (ownEnumerable options)
           then Throw both
           else Ref.specNormalizeGasLimit options;
       formatCallTx := Ref.specFormatCallTx |} in
  let bag := VObj [("from", VStr Ref.account); ("gas", VNum 1); ("gasLimit", VNum 2)] in
  ethSendTransaction strict Ref.adapter bag [] = (Throw both, [])
  /\ send strict Ref.handle "balanceOf" [] bag [] = (Throw both, [])
  /\ estimateGas strict Ref.handle "balanceOf" [] bag [] = (Throw both, []).
Proof.
  intros both strict bag.
  destruct (normalizer_failure_stops_everything strict Ref.adapter Ref.handle
              "balanceOf" [] bag [] both eq_refl) as [Htx [Hsend Hestimate]].
  split; [exact Htx|]. split; [exact (Hsend eq_refl) | exact (Hestimate eq_refl)].
Defined.

(** X11.  One invocation of [ethSendTransaction] or of [send], with or
    without options, submits at most once: the submissions in the trace
    afterwards are those from before, or those and one more. *)
Theorem sends_submit_at_most_once :
  forall (txs : Transactions) (adapter : EthersAdapter)
         (this : EthersContractAdapter)
         (methodName : string) (params : list value) (bag : value) (t : trace),
    (submissions (snd (ethSendTransaction txs adapter bag t)) = submissions t
     \/ exists r, submissions (snd (ethSendTransaction txs adapter bag t))
                  = submissions t ++ [r])
    /\ (submissions (snd (send txs this methodName params bag t)) = submissions t
        \/ exists r, submissions (snd (send txs this methodName params bag t))
                     = submissions t ++ [r]).
Proof.
  intros txs adapter this methodName params bag t.
  assert (Hone : forall r, isSubmission r = true ->
                           submissions ((t ++ [SignerGetAddress]) ++ [r])
                           = submissions t ++ [r]).
  { intros r Hr. rewrite !submissions_app. simpl. rewrite Hr, app_nil_r.
    reflexivity. }
  split.
  - rewrite ethSendTransaction_run.
    destruct (normalizeGasLimit txs bag) as [normalized|e]; [|left; reflexivity].
    destruct (get normalized "from") as [from|e]; [|left; reflexivity].
    destruct (get normalized "gas") as [gas|e]; [|left; reflexivity].
    destruct (fst (checkFromAddress adapter from t)) as [[]|e];
      [|left; apply submissions_getAddress].
    right. exists (SignerSendTransaction (sendOverrides normalized gas)). cbv zeta.
    destruct (signer adapter _ _) as [response|e]; [|apply Hone; reflexivity].
    destruct (get response "hash"); apply Hone; reflexivity.
  - destruct (notNullish bag) eqn:Hopt.
    + rewrite (send_run _ _ _ _ _ _ Hopt).
      destruct (normalizeGasLimit txs bag) as [normalized|e]; [|left; reflexivity].
      destruct (get normalized "from") as [from|e]; [|left; reflexivity].
      destruct (get normalized "gas") as [gas|e]; [|left; reflexivity].
      destruct (fst (checkFromAddress (ethersAdapter this) from t)) as [[]|e];
        [|left; apply submissions_getAddress].
      cbv zeta.
      destruct (findFunction methodName (contract_interface (contract this)));
        [|left; apply submissions_getAddress].
      right. eexists.
      destruct (signer (ethersAdapter this) _ _) as [response|e];
        [|apply Hone; reflexivity].
      destruct (get response "hash"); apply Hone; reflexivity.
    + unfold send, contractFunction, perform, bind, throw, lift, ret.
      rewrite Hopt.
      destruct (findFunction methodName (contract_interface (contract this)));
        [|left; reflexivity].
      right. exists (ContractFunction (address this) methodName params).
      destruct (signer (ethersAdapter this) t _) as [response|e]; simpl;
        [destruct (get response "hash"); simpl|];
        rewrite submissions_app; reflexivity.
Qed.

(** X12.  [checkFromAddress] hands on what goes wrong on the way: a
    rejected account lookup rejects it with that error, and a [from] the
    library does not accept as an address rejects it with the library's
    error, not with the address mismatch error.  And since the
    comparison is strict, an account that is not a string matches no
    [from] at all. *)
Theorem checkFromAddress_propagates_errors :
  forall (this : EthersAdapter) (from : value) (t : trace),
    (forall e,
        signer this t SignerGetAddress = Throw e ->
        checkFromAddress this from t = (Throw e, t ++ [SignerGetAddress]))
    /\ (forall expectedFrom e,
          signer this t SignerGetAddress = Ok expectedFrom ->
          utils_getAddress (ethers this) from = Throw e ->
          checkFromAddress this from t = (Throw e, t ++ [SignerGetAddress]))
    /\ (forall expectedFrom normalized,
          signer this t SignerGetAddress = Ok expectedFrom ->
          utils_getAddress (ethers this) from = Ok normalized ->
          (forall s, expectedFrom <> VStr s) ->
          checkFromAddress this from t
          = (Throw (addressMismatchError expectedFrom from),
             t ++ [SignerGetAddress])).
Proof.
  intros this from t. rewrite checkFromAddress_run.
  split; [|split].
  - intros e ->. reflexivity.
  - intros expectedFrom e -> ->. reflexivity.
  - intros expectedFrom normalized -> -> Hnot.
    destruct (strictNeStr normalized expectedFrom) eqn:E; [reflexivity|].
    apply strictNeStr_false in E. exfalso. exact (Hnot _ E).
Qed.

Lemma checkFromAddress_propagates_errors_witness :
  checkFromAddress Ref.adapter (VStr "0x4d1A2e2bB4F88F0250f26Ffff098B0b30B26BF38") []
  = (Throw (Ref.invalid "bad address checksum"), [SignerGetAddress]).
Proof.
  apply (proj1 (proj2 (checkFromAddress_propagates_errors Ref.adapter
           (VStr "0x4d1A2e2bB4F88F0250f26Ffff098B0b30B26BF38") []))
           (VStr Ref.account)).
  - reflexivity.
  - vm_compute. reflexivity.
Defined.

(** ** [getSendOptions] applied twice *)

Module SpreadFacts.

Lemma In_lookup (k : string) (ps : props) :
  In k (map fst ps) -> lookup k ps <> None.
Proof.
  induction ps as [|[k' v'] ps IH]; simpl; [contradiction|].
  intros [Heq | Hin].
  - subst k'. rewrite String.eqb_refl. discriminate.
  - destruct (String.eqb k k'); [discriminate | apply IH, Hin].
Qed.

Lemma hasKey_false (k : string) (ps : props) :
  hasKey k ps = false <-> ~ In k (map fst ps).
Proof.
  unfold hasKey. split.
  - intros H Hin. apply (In_lookup _ _ Hin). destruct (lookup k ps); [discriminate|].
    reflexivity.
  - intros H. rewrite (lookup_notIn _ _ H). reflexivity.
Qed.

(** Assignment keeps the keys in place, or adds the new key last. *)
Lemma setProp_keys (k : string) (v : value) (ps : props) :
  map fst (setProp k v ps)
  = if hasKey k ps then map fst ps else map fst ps ++ [k].
Proof.
  unfold setProp. destruct (hasKey k ps).
  - rewrite map_map. apply map_ext_in. intros [k' v'] _. simpl.
    destruct (String.eqb k k') eqn:E; [|reflexivity].
    apply String.eqb_eq in E. exact E.
  - rewrite map_app. reflexivity.
Qed.

Lemma setProp_NoDup (k : string) (v : value) (ps : props) :
  NoDup (map fst ps) -> NoDup (map fst (setProp k v ps)).
Proof.
  intros Hnd. rewrite setProp_keys. destruct (hasKey k ps) eqn:E; [exact Hnd|].
  apply hasKey_false in E. apply NoDup_app; [exact Hnd | repeat constructor; intros [] |].
  intros x Hx [<- | []]. contradiction.
Qed.

(** Spreading keeps the keys distinct and the first key first. *)
Lemma fold_setProp_shape (src base : props) (k0 : string) :
  NoDup (map fst base) ->
  hd_error (map fst base) = Some k0 ->
  NoDup (map fst (fold_left (fun acc kv => setProp (fst kv) (snd kv) acc) src base))
  /\ hd_error (map fst (fold_left (fun acc kv => setProp (fst kv) (snd kv) acc)
                          src base)) = Some k0.
Proof.
  revert base. induction src as [|[k v] src IH]; intros base Hnd Hhd; simpl.
  - split; assumption.
  - apply IH.
    + apply setProp_NoDup, Hnd.
    + rewrite setProp_keys. destruct (hasKey k base); [exact Hhd|].
      destruct (map fst base); [discriminate | exact Hhd].
Qed.

(** Keys that are new, one after the other, are appended in order. *)
Lemma fold_setProp_fresh (rest base : props) :
  NoDup (map fst base ++ map fst rest) ->
  fold_left (fun acc kv => setProp (fst kv) (snd kv) acc) rest base = base ++ rest.
Proof.
  revert base. induction rest as [|[k v] rest IH]; intros base Hnd; simpl.
  - rewrite app_nil_r. reflexivity.
  - assert (Hfresh : hasKey k base = false).
    { apply hasKey_false. intros Hin. simpl in Hnd.
      apply NoDup_remove_2 in Hnd. apply Hnd. apply in_or_app. left. exact Hin. }
    unfold setProp at 2. rewrite Hfresh. rewrite IH.
    + rewrite <- app_assoc. reflexivity.
    + rewrite map_app, <- app_assoc. exact Hnd.
Qed.

End SpreadFacts.

(** X13.  What [getSendOptions] returns always has a [from] and no key
    twice, and applying [getSendOptions] to it again, with whatever
    owner, gives it back unchanged: a [from] once set is never replaced
    by the owner account. *)
Theorem getSendOptions_absorbs :
  forall (ownerAccount otherAccount options : value),
    NoDup (map fst (ownEnumerable (getSendOptions ownerAccount options)))
    /\ hasKey "from" (ownEnumerable (getSendOptions ownerAccount options)) = true
    /\ getSendOptions otherAccount (getSendOptions ownerAccount options)
       = getSendOptions ownerAccount options.
Proof.
  intros ownerAccount otherAccount options.
  destruct (SpreadFacts.fold_setProp_shape (ownEnumerable options)
              [("from", ownerAccount)] "from")
    as [Hnd Hhd]; [repeat constructor; intros [] | reflexivity |].
  change (fold_left (fun acc kv => setProp (fst kv) (snd kv) acc)
                    (ownEnumerable options) [("from", ownerAccount)])
    with (spread [("from", ownerAccount)] options) in Hnd, Hhd.
  unfold getSendOptions. cbn [ownEnumerable].
  set (ps := spread [("from", ownerAccount)] options) in *. clearbody ps.
  destruct ps as [|[k v] rest]; [discriminate|].
  simpl in Hhd. injection Hhd as ->.
  split; [exact Hnd|]. split; [reflexivity|].
  unfold spread. cbn [ownEnumerable fold_left fst snd].
  change (setProp "from" v [("from", otherAccount)]) with [("from", v)].
  rewrite SpreadFacts.fold_setProp_fresh; [reflexivity | exact Hnd].
Qed.

(** ** Construction, [getProvider] and [getContract] *)

(** X14.  The constructor fails fast: an adapter comes out of it only
    with a truthy [ethers] and a truthy [signer], which it keeps as
    given; when the library is missing that is what the error names,
    whether or not the signer is missing too. *)
Theorem constructor_fails_fast :
  forall (config ethersLibrary signerObject : value),
    get config "ethers" = Ok ethersLibrary ->
    get config "signer" = Ok signerObject ->
    (forall adapter,
        EthersAdapter_constructor config = Ok adapter ->
        falsy ethersLibrary = false /\ falsy signerObject = false
        /\ adapter = VObj [("ethers", ethersLibrary); ("signer", signerObject)])
    /\ (falsy ethersLibrary = true ->
        EthersAdapter_constructor config
        = Throw (Error "ethers property missing from options"))
    /\ (falsy ethersLibrary = false -> falsy signerObject = true ->
        EthersAdapter_constructor config
        = Throw (Error "signer property missing from options"))
    /\ (falsy ethersLibrary = false -> falsy signerObject = false ->
        exists adapter, EthersAdapter_constructor config = Ok adapter).
Proof.
  intros config ethersLibrary signerObject He Hs.
  unfold EthersAdapter_constructor. rewrite He, Hs. cbn [rbind].
  destruct (falsy ethersLibrary), (falsy signerObject);
    (split; [intros adapter H; try discriminate;
             injection H as <-; auto|]);
    (split; [intros H; try discriminate; reflexivity|]);
    (split; [intros H1 H2; try discriminate; reflexivity|]);
    intros H1 H2; try discriminate; eexists; reflexivity.
Qed.

Lemma constructor_fails_fast_witness :
  EthersAdapter_constructor (VObj [])
  = Throw (Error "ethers property missing from options")
  /\ EthersAdapter_constructor (VObj [("ethers", VObj [("utils", VObj [])])])
     = Throw (Error "signer property missing from options").
Proof.
  split.
  - exact (proj1 (proj2 (constructor_fails_fast (VObj []) VUndefined VUndefined
                           eq_refl eq_refl)) eq_refl).
  - exact (proj1 (proj2 (proj2 (constructor_fails_fast
                                  (VObj [("ethers", VObj [("utils", VObj [])])])
                                  (VObj [("utils", VObj [])]) VUndefined
                                  eq_refl eq_refl))) eq_refl eq_refl).
Defined.

(** X15.  [getProvider] prefers the [provider] wrapped by the signer's
    provider and falls back on [_web3Provider] only when the former is
    falsy, so that it returns something truthy exactly when one of the
    two is; a signer without a provider makes it throw a TypeError. *)
Theorem getProvider_prefers_wrapped :
  forall (signerObject provider inner web3 : value),
    get signerObject "provider" = Ok provider ->
    (notNullish provider = false ->
     exists msg, getProvider signerObject = Throw (TypeError msg))
    /\ (get provider "provider" = Ok inner ->
        get provider "_web3Provider" = Ok web3 ->
        exists r,
          getProvider signerObject = Ok r
          /\ (falsy inner = false -> r = inner)
          /\ (falsy inner = true -> r = web3)
          /\ (falsy r = false <-> falsy inner = false \/ falsy web3 = false)).
Proof.
  intros signerObject provider inner web3 Hp. unfold getProvider. rewrite Hp.
  cbn [rbind]. split.
  - intros Hnull. destruct provider; try discriminate; eexists; reflexivity.
  - intros Hinner Hweb3. rewrite Hinner. cbn [rbind].
    destruct (falsy inner) eqn:E.
    + rewrite Hweb3. exists web3. split; [reflexivity|].
      split; [discriminate|]. split; [reflexivity|].
      split; [intros H; right; exact H | intros [H|H]; [discriminate | exact H]].
    + exists inner. split; [reflexivity|]. split; [reflexivity|].
      split; [discriminate|]. split; [intros _; left; reflexivity | intros _; exact E].
Qed.

Lemma getProvider_prefers_wrapped_witness :
  let web3 := VObj [("isMetaMask", VBool true)] in
  getProvider (VObj [("provider", VObj [("_web3Provider", web3)])]) = Ok web3.
Proof.
  intros web3.
  destruct (proj2 (getProvider_prefers_wrapped
                     (VObj [("provider", VObj [("_web3Provider", web3)])])
                     (VObj [("_web3Provider", web3)]) VUndefined web3 eq_refl)
                  eq_refl eq_refl) as [r [Hr [_ [Hfallback _]]]].
  rewrite Hr, (Hfallback eq_refl). reflexivity.
Defined.

(** X16.  A handle from [getContract] is bound to the address it was
    given, and to the zero address when it was given none (or an empty
    one); it works through the adapter that made it: what [send] submits
    through the handle names that address and is answered by that
    adapter's signer. *)
Theorem getContract_binds :
  forall (txs : Transactions) (this : EthersAdapter)
         (abi : list (string * FunctionDescription)) (contractAddress : value),
    let handle := getContract this abi contractAddress in
    let bound := if falsy contractAddress then VStr zeroAddress else contractAddress in
    address handle = bound
    /\ ethersAdapter handle = this
    /\ (forall methodName params t f,
          findFunction methodName abi = Some f ->
          let request := ContractFunction bound methodName params in
          snd (send txs handle methodName params VUndefined t) = t ++ [request]
          /\ (forall e, signer this t request = Throw e ->
                        fst (send txs handle methodName params VUndefined t)
                        = Throw e)).
Proof.
  intros txs this abi contractAddress handle bound.
  split; [reflexivity|]. split; [reflexivity|].
  intros methodName params t f Hf request.
  unfold send, contractFunction, perform, bind, lift, ret. cbn [notNullish].
  change (contract_interface (contract handle)) with abi. rewrite Hf.
  change (ethersAdapter handle) with this.
  change (ContractFunction (address handle) methodName params) with request.
  destruct (signer this t request) as [response|e0].
  - split; [destruct (get response "hash"); reflexivity | discriminate].
  - split; [reflexivity | intros e H; injection H as <-; reflexivity].
Qed.

Lemma getContract_binds_witness :
  snd (send Ref.txs (getContract Ref.adapter (contract_interface Ref.token) VUndefined)
         "balanceOf" [VStr Ref.account] VUndefined [])
  = [ContractFunction (VStr zeroAddress) "balanceOf" [VStr Ref.account]].
Proof.
  exact (proj1 (proj2 (proj2 (getContract_binds Ref.txs Ref.adapter
                                (contract_interface Ref.token) VUndefined))
                      "balanceOf" [VStr Ref.account] [] Ref.balanceOf eq_refl)).
Defined.

(** ** A [from] the library does not accept *)

(** X17.  When the library rejects the [from] of the normalized bag as
    an address (as it does for a bag that has no [from] at all, whose
    [from] reads undefined), [ethSendTransaction] and [send] with
    options reject with the library's error right after the account
    lookup: supplying options without a usable [from] never falls back
    on the signer's own account, and submits nothing. *)
Theorem unusable_from_rejects :
  forall (txs : Transactions) (adapter : EthersAdapter)
         (this : EthersContractAdapter)
         (methodName : string) (params : list value)
         (bag normalized from expectedFrom : value) (t : trace) (e : exn),
    normalizeGasLimit txs bag = Ok normalized ->
    get normalized "from" = Ok from ->
    (signer adapter t SignerGetAddress = Ok expectedFrom ->
     utils_getAddress (ethers adapter) from = Throw e ->
     ethSendTransaction txs adapter bag t = (Throw e, t ++ [SignerGetAddress]))
    /\ (notNullish bag = true ->
        signer (ethersAdapter this) t SignerGetAddress = Ok expectedFrom ->
        utils_getAddress (ethers (ethersAdapter this)) from = Throw e ->
        send txs this methodName params bag t = (Throw e, t ++ [SignerGetAddress]))
    /\ submissions (t ++ [SignerGetAddress]) = submissions t.
Proof.
  intros txs adapter this methodName params bag normalized from expectedFrom t e
         Hnorm Hfrom.
  destruct (get_defined _ _ "gas" _ Hfrom) as [gas Hgas].
  split; [|split; [|apply submissions_getAddress]].
  - intros Hacct Hlib.
    rewrite ethSendTransaction_run, Hnorm, Hfrom, Hgas, checkFromAddress_run,
      Hacct, Hlib. reflexivity.
  - intros Hopt Hacct Hlib.
    rewrite (send_run _ _ _ _ _ _ Hopt), Hnorm, Hfrom, Hgas, checkFromAddress_run,
      Hacct, Hlib. reflexivity.
Qed.

Lemma unusable_from_rejects_witness :
  let bag := VObj [("gas", VNum 21000)] in
  ethSendTransaction Ref.txs Ref.adapter bag []
    = (Throw (Ref.invalid "invalid address"), [SignerGetAddress])
  /\ send Ref.txs Ref.handle "balanceOf" [] bag []
     = (Throw (Ref.invalid "invalid address"), [SignerGetAddress]).
Proof.
  intros bag.
  destruct (unusable_from_rejects Ref.txs Ref.adapter Ref.handle "balanceOf" []
              bag bag VUndefined (VStr Ref.account) [] (Ref.invalid "invalid address")
              eq_refl eq_refl) as [Htx [Hsend _]].
  split; [exact (Htx eq_refl eq_refl) | exact (Hsend eq_refl eq_refl eq_refl)].
Defined.
